(** * rail: the schedule document model, its delay computation and rendering

    A shallow embedding of [main.go]: the types [Message], [UniqueResponse],
    [Timestamp], [Location] and [Event], their [String] methods, the method
    [Location.Delay], and the message loop of [main].

    Go strings are byte strings and are modelled by [string] (a list of
    8-bit characters; [String.length] is Go's [len]).  [float64] is modelled
    by the IEEE 754 binary64 instance of [SpecFloat].  A call of [log.Fatal]
    ends the process; it is modelled by the [Fatal] outcome of a small error
    monad. *)

From Stdlib Require Import ZArith List String Ascii Bool Lia.
From Stdlib Require Import DecimalString.
From Stdlib Require Import Floats.SpecFloat.
Import ListNotations.

Local Open Scope string_scope.
Local Open Scope Z_scope.

(* ================================================================== *)
(** * Byte-string helpers *)

(** The characters written with an escape in the Go source. *)
Definition LF : ascii := ascii_of_nat 10.
Definition TAB : ascii := ascii_of_nat 9.
Definition nl : string := String LF EmptyString.
Definition tab : string := String TAB EmptyString.

(** [s[n:]] for [n <= len(s)]. *)
Fixpoint drop (n : nat) (s : string) : string :=
  match n, s with
  | O, _ => s
  | S n', String _ s' => drop n' s'
  | S _, EmptyString => EmptyString
  end.

(** [s[:n]] for [n <= len(s)]. *)
Fixpoint take (n : nat) (s : string) : string :=
  match n, s with
  | O, _ => EmptyString
  | S n', String c s' => String c (take n' s')
  | S _, EmptyString => EmptyString
  end.

(** [s != ""]. *)
Definition nonempty (s : string) : bool :=
  match s with EmptyString => false | String _ _ => true end.

(* ================================================================== *)
(** * The part of Go's [time] package that [Delay] calls

    [time.Parse], [Time.Sub] and [Duration.Minutes], restricted to the
    layout alphabet of this program: the three layouts [15:04], [15:04:00]
    and [15:04:05] are written with the characters 0 1 4 5 and a colon
    only.  The behaviour is that of Go 1.17 and later, where a fraction of
    a second in the value may start with a comma as well as a period. *)

Module GoTime.

(** The layout codes [nextStdChunk] can return on that alphabet.  [stdNone]
    is Go's [0] (no code left).  Codes for months, days, years and 12-hour
    clocks are folded into [stdUnmodelled]: none of the three layouts
    produces one ([layout_1504], [layout_150400], [layout_150405]). *)
Inductive Std : Type :=
| stdNone
| stdHour
| stdMinute
| stdZeroMinute
| stdSecond
| stdZeroSecond
| stdUnmodelled.

(** [std0x[d - '1']] for a digit ['1' <= d <= '6']: 01 month, 02 day,
    03 hour12, 04 minute, 05 second, 06 year. *)
Definition std0x (d : ascii) : Std :=
  if Ascii.eqb d "4" then stdZeroMinute
  else if Ascii.eqb d "5" then stdZeroSecond
  else stdUnmodelled.

Definition between (lo hi c : ascii) : bool :=
  ((nat_of_ascii lo <=? nat_of_ascii c)%nat
   && (nat_of_ascii c <=? nat_of_ascii hi)%nat)%bool.

(** [nextStdChunk]: the text before the first layout code, the code, and the
    text after it; [(layout, 0, "")] when there is none.  Go scans with an
    index [i]; here the scan is the recursion and the skipped characters are
    consed onto the prefix. *)
Fixpoint nextStdChunk (layout : string) : string * Std * string :=
  match layout with
  | EmptyString => (EmptyString, stdNone, EmptyString)
  | String c rest =>
      let later :=
        let '(p, s, suf) := nextStdChunk rest in (String c p, s, suf) in
      if Ascii.eqb c "0" then
        (* case '0': 01, 02, 03, 04, 05, 06, 002 *)
        match rest with
        | String d rest' =>
            if between "1" "6" d then (EmptyString, std0x d, rest')
            else if Ascii.eqb d "0" then
              match rest' with
              | String e rest3 =>
                  if Ascii.eqb e "2" then (EmptyString, stdUnmodelled, rest3)
                  else later
              | EmptyString => later
              end
            else later
        | EmptyString => later
        end
      else if Ascii.eqb c "1" then
        (* case '1': 15, 1 *)
        match rest with
        | String d rest' =>
            if Ascii.eqb d "5" then (EmptyString, stdHour, rest')
            else (EmptyString, stdUnmodelled, rest)
        | EmptyString => (EmptyString, stdUnmodelled, rest)
        end
      else if Ascii.eqb c "4" then (EmptyString, stdMinute, rest)
      else if Ascii.eqb c "5" then (EmptyString, stdSecond, rest)
      else later
  end.

(** [errBad], or [nil]. *)
Inductive goerr : Type := noerr | errBad.

Definition isDigitChar (c : ascii) : bool := between "0" "9" c.

(** [isDigit(s, i)]: [i] is in range and [s[i]] is a decimal digit. *)
Definition isDigit (s : string) (i : nat) : bool :=
  match String.get i s with
  | Some c => isDigitChar c
  | None => false
  end.

(** [int(c - '0')]. *)
Definition digitVal (c : ascii) : Z := Z.of_nat (nat_of_ascii c) - 48.

(** [getnum]: one or two leading digits as a number ([fixed] forces two),
    and the rest of the string. *)
Definition getnum (s : string) (fixed : bool) : Z * string * goerr :=
  match s with
  | String c0 s1 =>
      if isDigitChar c0 then
        match s1 with
        | String c1 s2 =>
            if isDigitChar c1 then (digitVal c0 * 10 + digitVal c1, s2, noerr)
            else if fixed then (0, s, errBad)
            else (digitVal c0, s1, noerr)
        | EmptyString =>
            if fixed then (0, s, errBad) else (digitVal c0, s1, noerr)
        end
      else (0, s, errBad)
  | EmptyString => (0, s, errBad)
  end.

(** [cutspace]: drop the leading spaces. *)
Fixpoint cutspace (s : string) : string :=
  match s with
  | String c s' => if Ascii.eqb c " " then cutspace s' else s
  | EmptyString => s
  end.

(** [skip(value, prefix)]: remove [prefix] from the front of [value], a run
    of spaces of the prefix matching any run of spaces of the value.  On a
    mismatch the value is returned as it stands at the mismatch.  Go cuts
    the whole run of spaces off the prefix at once; here [inrun] records
    that the run of the prefix is being passed over. *)
Fixpoint skip_from (inrun : bool) (value prefix : string) : string * goerr :=
  match prefix with
  | EmptyString => (value, noerr)
  | String p prefix' =>
      if Ascii.eqb p " " then
        if inrun then skip_from true value prefix'
        else
          match value with
          | String v _ =>
              if Ascii.eqb v " " then skip_from true (cutspace value) prefix'
              else (value, errBad)
          | EmptyString => skip_from true value prefix'
          end
      else
        match value with
        | String v value' =>
            if Ascii.eqb v p then skip_from false value' prefix'
            else (value, errBad)
        | EmptyString => (value, errBad)
        end
  end.

Definition skip (value prefix : string) : string * goerr :=
  skip_from false value prefix.

(** The [Message] field of a [ParseError], kept structured: Go stores the
    text [": extra text: " + quote(v)], the text [": " + what +
    " out of range"], or the empty string. *)
Inductive ErrMessage : Type :=
| MsgNone
| MsgExtraText (v : string)
| MsgOutOfRange (what : string).

(** [time.ParseError]. *)
Record ParseError : Type := newParseError
  { Layout : string;
    Value : string;
    LayoutElem : string;
    ValueElem : string;
    Message : ErrMessage }.

(** A [Time] in UTC without monotonic reading: the seconds since the start
    of 1 January of year 1 ([Time.sec()]) and the nanoseconds within the
    second ([Time.nsec()]). *)
Record Time : Type := mkTime { tsec : Z; tnsec : Z }.

(** 1 January of year 0, the date [Parse] gives a value whose layout has no
    date: year 0 is a leap year, so it lies 366 days before year 1. *)
Definition yearZero : Z := - (366 * 86400).

(** [Date(0, January, 1, hour, min, sec, nsec, UTC)] for clock fields in
    range. *)
Definition Date0 (hour min sec nsec : Z) : Time :=
  mkTime (yearZero + hour * 3600 + min * 60 + sec) nsec.

(** The clock fields [parse] builds up. *)
Record Clock : Type := mkClock { hour : Z; min : Z; sec : Z; nsec : Z }.

(** Decimal value of a string of digits ([atoi] on digits only). *)
Fixpoint atoi_from (acc : Z) (s : string) : Z :=
  match s with
  | String c s' => atoi_from (acc * 10 + digitVal c) s'
  | EmptyString => acc
  end.

(** Length of the leading run of digits of [s]. *)
Fixpoint digitRun (s : string) : nat :=
  match s with
  | String c s' => if isDigitChar c then S (digitRun s') else O
  | EmptyString => O
  end.

(** [parseNanoseconds(value, nbytes)] for a [value] that starts with a
    period or comma followed by [nbytes - 1] digits: at most nine digits
    are read and scaled to nanoseconds. *)
Definition parseNanoseconds (value : string) (nbytes : nat) : Z :=
  let nbytes' := Nat.min nbytes 10 in
  let ns := atoi_from 0 (take (nbytes' - 1) (drop 1 value)) in
  ns * 10 ^ Z.of_nat (10 - nbytes').

Definition commaOrPeriod (c : ascii) : bool :=
  (Ascii.eqb c "." || Ascii.eqb c ",")%bool.

(** One iteration of the loop of [parse]: the next layout code is read off
    the value.  [alayout] and [avalue] are the whole layout and value, for
    the error; [next] is the rest of the loop, on the rest of the layout. *)
Definition parseStep
    (next : string -> string -> Clock -> option (Time + ParseError))
    (alayout avalue layout value : string) (k : Clock)
    : option (Time + ParseError) :=
  let '(prefix, std, suffix) := nextStdChunk layout in
  let stdstr :=
    take (String.length layout - String.length suffix
          - String.length prefix)
         (drop (String.length prefix) layout) in
  match skip value prefix with
  | (value, errBad) =>
      Some (inr (newParseError alayout avalue prefix value MsgNone))
  | (value, noerr) =>
      let hold := value in
      let outOfRange what rest :=
        Some (inr (newParseError alayout avalue stdstr rest
                                 (MsgOutOfRange what))) in
      let bad :=
        Some (inr (newParseError alayout avalue stdstr hold MsgNone)) in
      match std with
      | stdNone =>
          if nonempty value then
            Some (inr (newParseError alayout avalue EmptyString value
                                     (MsgExtraText value)))
          else Some (inl (Date0 (hour k) (min k) (sec k) (nsec k)))
      | stdHour =>
          let '(h, value, err) := getnum value false in
          if ((h <? 0) || (24 <=? h))%bool then outOfRange "hour" value
          else
            match err with
            | errBad => bad
            | noerr =>
                next suffix value (mkClock h (min k) (sec k) (nsec k))
            end
      | stdMinute | stdZeroMinute =>
          let '(m, value, err) :=
            getnum value
                   (match std with stdZeroMinute => true | _ => false end)
          in
          if ((m <? 0) || (60 <=? m))%bool then outOfRange "minute" value
          else
            match err with
            | errBad => bad
            | noerr =>
                next suffix value (mkClock (hour k) m (sec k) (nsec k))
            end
      | stdSecond | stdZeroSecond =>
          let '(s, value, err) :=
            getnum value
                   (match std with stdZeroSecond => true | _ => false end)
          in
          match err with
          | errBad => bad
          | noerr =>
              if ((s <? 0) || (60 <=? s))%bool
              then outOfRange "second" value
              else
                (* a fractional second in the value and none in the
                   layout (no layout code modelled here is one) *)
                match value with
                | String c0 _ =>
                    if (commaOrPeriod c0 && isDigit value 1)%bool then
                      let n := S (digitRun (drop 1 value)) in
                      next suffix (drop n value)
                           (mkClock (hour k) (min k) s
                                    (parseNanoseconds value n))
                    else
                      next suffix value
                           (mkClock (hour k) (min k) s (nsec k))
                | EmptyString =>
                    next suffix value
                         (mkClock (hour k) (min k) s (nsec k))
                end
          end
      | stdUnmodelled => bad
      end
  end.

(** The loop of [parse].  Each iteration with a code shortens the layout,
    so [fuel] above its length is never used up ([parseLoop_fuel]); [None]
    stands for running out of it. *)
Fixpoint parseLoop (fuel : nat) (alayout avalue layout value : string)
    (k : Clock) : option (Time + ParseError) :=
  match fuel with
  | O => None
  | S fuel' =>
      parseStep (parseLoop fuel' alayout avalue) alayout avalue layout value k
  end.

(** [time.Parse(layout, value)].  The fuel is enough for every layout, so
    the last branch is never taken. *)
Definition Parse (layout value : string) : Time + ParseError :=
  match parseLoop (S (String.length layout)) layout value layout value
                  (mkClock 0 0 0 0) with
  | Some r => r
  | None => inr (newParseError layout value layout value MsgNone)
  end.

(** A [Duration]: a count of nanoseconds (an [int64] in Go). *)
Definition Duration : Type := Z.
Definition Second : Duration := 1000000000.
Definition Minute : Duration := 60 * Second.

(** [t.Sub(u)].  Go saturates the result at the bounds of [int64]; two
    values of one day are less than 2^47 nanoseconds apart ([Sub_small]),
    so the saturation is left out. *)
Definition Sub (t u : Time) : Duration :=
  (tsec t - tsec u) * Second + (tnsec t - tnsec u).

End GoTime.

(* ================================================================== *)
(** * [float64] and the verb [%f] *)

Module GoFloat.

(** IEEE 754 binary64: 53 bits of precision, exponents below 1024. *)
Definition float64 : Type := spec_float.

Definition prec : Z := 53.
Definition emax : Z := 1024.

(** [float64(n)] for an integer [n], rounded to nearest even. *)
Definition float64_of_Z (n : Z) : float64 := binary_normalize prec emax n 0 false.

Definition fadd (x y : float64) : float64 := SFadd prec emax x y.
Definition fdiv (x y : float64) : float64 := SFdiv prec emax x y.

(** [x > 0] on [float64]. *)
Definition gt0 (x : float64) : bool := SFltb (S754_zero false) x.

(** [num / den] rounded to the nearest integer, ties to even, for
    [0 <= num] and [0 < den]. *)
Definition round_half_even (num den : Z) : Z :=
  let q := num / den in
  match (2 * (num mod den) ?= den) with
  | Lt => q
  | Gt => q + 1
  | Eq => if Z.even q then q else q + 1
  end.

(** The decimal digits of a natural number, without leading zeros (["0"]
    for zero). *)
Definition decimal (n : Z) : string :=
  NilZero.string_of_uint (N.to_uint (Z.to_N n)).

(** The last [n] decimal digits of [v], zero-padded. *)
Fixpoint fixed_digits (n : nat) (v : Z) : string :=
  match n with
  | O => EmptyString
  | S n' =>
      fixed_digits n' (v / 10)
      ++ String (ascii_of_nat (48 + Z.to_nat (v mod 10))) EmptyString
  end.

(** [fmt.Sprintf("%f", x)]: [strconv.AppendFloat(_, x, 'f', 6, 64)], the
    exact value of [x] rounded to six decimals, ties to even. *)
Definition fmt_f (x : float64) : string :=
  let sign (s : bool) := if s then "-" else "" in
  match x with
  | S754_zero s => sign s ++ "0.000000"
  | S754_infinity s => if s then "-Inf" else "+Inf"
  | S754_nan => "NaN"
  | S754_finite s m e =>
      let micro :=
        if 0 <=? e then Zpos m * 2 ^ e * 1000000
        else round_half_even (Zpos m * 1000000) (2 ^ (- e)) in
      sign s ++ decimal (micro / 1000000) ++ "."
      ++ fixed_digits 6 (micro mod 1000000)
  end.

(** [d.Minutes()]: the whole minutes and the remaining nanoseconds are
    converted apart; [/] and [%] on [int64] truncate toward zero. *)
Definition Minutes (d : GoTime.Duration) : float64 :=
  let min := Z.quot d GoTime.Minute in
  let nsec := Z.rem d GoTime.Minute in
  fadd (float64_of_Z min) (fdiv (float64_of_Z nsec) (float64_of_Z 60000000000)).

End GoFloat.

Import GoFloat.

(* ================================================================== *)
(** * Errors and [log.Fatal] *)

(** A Go [error] value: the [*time.ParseError] of [time.Parse], or an error
    of a collaborator of [main] (queue, decompression, XML decoding), of
    which only the text matters here. *)
Inductive error : Type :=
| TimeFormatError (e : GoTime.ParseError)
| ExternalError (text : string).

(** The outcome of a call that may end in [log.Fatal(err)]: the call
    returns, or the process is gone ([os.Exit(1)]) and nothing after the
    call runs. *)
Inductive outcome (A : Type) : Type :=
| Ret (a : A)
| Fatal (err : error).

Arguments Ret {A} a.
Arguments Fatal {A} err.

Definition bind {A B : Type} (c : outcome A) (f : A -> outcome B) : outcome B :=
  match c with
  | Ret a => f a
  | Fatal e => Fatal e
  end.

Notation "x <- c ;; k" := (bind c (fun x => k))
  (at level 61, c at next level, right associativity).

(** [v, err := time.Parse(form, s); if err != nil { log.Fatal(err) }]. *)
Definition parseOrFatal (form s : string) : outcome GoTime.Time :=
  match GoTime.Parse form s with
  | inl t => Ret t
  | inr e => Fatal (TimeFormatError e)
  end.

(* ================================================================== *)
(** * The document model *)

(** [Event]: an XML location event entity. *)
Record Event : Type := mkEvent
  { AT : string;
    ET : string;
    SRC : string }.

(** [Event{}]. *)
Definition Event_zero : Event := mkEvent "" "" "".

(** [==] on [Event]: field by field. *)
Definition Event_eqb (a b : Event) : bool :=
  (String.eqb (AT a) (AT b) && String.eqb (ET a) (ET b)
   && String.eqb (SRC a) (SRC b))%bool.

(** [e != (Event{})]. *)
Definition present (e : Event) : bool := negb (Event_eqb e Event_zero).

(** [Location]: an XML location element. *)
Record Location : Type := mkLocation
  { TPL : string;
    PTA : string;
    PTD : string;
    WTA : string;
    WTD : string;
    WTP : string;
    Arrival : Event;
    Departure : Event;
    Pass : Event }.

(** [Timestamp]: an XML timestamp element.  [TS_Location] is the field
    [Location]. *)
Record Timestamp : Type := mkTimestamp
  { RID : string;
    SSD : string;
    UID : string;
    TS_Location : list Location }.

(** [UniqueResponse]: an XML response element. *)
Record UniqueResponse : Type := mkUniqueResponse
  { UO : string;
    TS : Timestamp }.

(** [Message]: a top-level queue message.  [Msg_Timestamp] is the field
    [Timestamp]. *)
Record Message : Type := mkMessage
  { XMLNS : string;
    XMLNS2 : string;
    XMLNS3 : string;
    Msg_Timestamp : string;
    Version : string;
    UR : UniqueResponse }.

(* ================================================================== *)
(** * [Location.Delay] *)

(** The zero value of the named result [d], which a bare [return] hands
    back. *)
Definition d_zero : float64 := S754_zero false.

(** The layout chosen for the actual time. *)
Definition actualForm (at_ : string) : string :=
  if (String.length at_ =? 5)%nat then "15:04" else "15:04:00".

(** The layout chosen for the scheduled time. *)
Definition schedForm (sched : string) : string :=
  if (String.length sched =? 5)%nat then "15:04" else "15:04:05".

(** [func (l Location) Delay() (d float64)]. *)
Definition Delay (l : Location) : outcome float64 :=
  if present (Arrival l) then
    if negb (nonempty (AT (Arrival l))) then Ret d_zero
    else
      actual <- parseOrFatal (actualForm (AT (Arrival l))) (AT (Arrival l)) ;;
      if nonempty (PTA l) then
        est <- parseOrFatal (schedForm (PTA l)) (PTA l) ;;
        Ret (Minutes (GoTime.Sub actual est))
      else if nonempty (WTA l) then
        est <- parseOrFatal (schedForm (WTA l)) (WTA l) ;;
        Ret (Minutes (GoTime.Sub actual est))
      else Ret d_zero
  else Ret d_zero.

(* ================================================================== *)
(** * Rendering *)

(** [func (e Event) String() string]. *)
Definition Event_String (e : Event) : string :=
  let s := "" in
  let s := if nonempty (AT e) then "ACTUAL " ++ AT e ++ " " else s in
  let s := if nonempty (ET e) then s ++ "ESTIMATED " ++ ET e ++ " " else s in
  let s := if nonempty (SRC e) then s ++ " (Source: " ++ SRC e ++ ")" else s in
  s.

(** The text of a [Location] before the delay is looked at: the code, the
    scheduled times and the events. *)
Definition Location_fields (l : Location) : string :=
  let s := nl ++ "-- " ++ TPL l in
  let s := if nonempty (PTA l) then s ++ " | Public Time Arrive: " ++ PTA l else s in
  let s := if nonempty (PTD l) then s ++ " | Public Time Depart: " ++ PTD l else s in
  let s := if nonempty (WTA l) then s ++ " | Working Time Arrive: " ++ WTA l else s in
  let s := if nonempty (WTD l) then s ++ " | Working Time Depart: " ++ WTD l else s in
  let s := if nonempty (WTP l) then s ++ " | Working Time Pass: " ++ WTP l else s in
  let s := if present (Arrival l)
           then s ++ nl ++ tab ++ "** Arr: " ++ Event_String (Arrival l) else s in
  let s := if present (Departure l)
           then s ++ nl ++ tab ++ "** Dep: " ++ Event_String (Departure l) else s in
  let s := if present (Pass l)
           then s ++ nl ++ tab ++ "** Pass: " ++ Event_String (Pass l) else s in
  s.

(** [func (l Location) String() string].  [Delay] is called for the test
    and again for the text. *)
Definition Location_String (l : Location) : outcome string :=
  let s := Location_fields l in
  d <- Delay l ;;
  s <- (if gt0 d
        then d' <- Delay l ;; Ret (s ++ nl ++ "DELAY: " ++ fmt_f d')
        else Ret s) ;;
  Ret (s ++ nl).

(** The loop [for _, l := range t.Location] of [Timestamp.String]. *)
Fixpoint Timestamp_locations (s : string) (ls : list Location) : outcome string :=
  match ls with
  | [] => Ret s
  | l :: ls' =>
      t <- Location_String l ;;
      Timestamp_locations (s ++ nl ++ t) ls'
  end.

(** [func (t Timestamp) String() string]. *)
Definition Timestamp_String (t : Timestamp) : outcome string :=
  let s := "" in
  let s := if nonempty (RID t) then "RID: " ++ RID t ++ " " else s in
  let s := if nonempty (SSD t) then "SSD: " ++ SSD t ++ " " else s in
  let s := if nonempty (UID t) then "UID: " ++ UID t ++ " " else s in
  Timestamp_locations s (TS_Location t).

(** [func (ur UniqueResponse) String() string]. *)
Definition UniqueResponse_String (ur : UniqueResponse) : outcome string :=
  t <- Timestamp_String (TS ur) ;;
  Ret (nl ++ "Update Origin: " ++ UO ur ++ nl ++ nl ++ t).

(** [func (r Message) String() string]. *)
Definition Message_String (r : Message) : outcome string :=
  let s := "[" ++ Msg_Timestamp r ++ " v" ++ Version r ++ "]:" in
  if nonempty (UO (UR r)) then
    u <- UniqueResponse_String (UR r) ;;
    Ret (s ++ nl ++ tab ++ u)
  else Ret s.

(* ================================================================== *)
(** * The message loop of [main] *)

(** What one turn of the loop gets from the queue, the decompression and
    the XML decoder, which are outside this model: an error of one of them,
    or the decompressed body and the [Message] decoded from it. *)
Inductive Delivery : Type :=
| SubscriptionError (e : string)
| ReadError (e : string)
| UnmarshalError (e : string)
| Document (body : string) (m : Message).

(** One turn: the texts handed to [log.Print], [log.Println] and
    [log.Printf], and the error given to [log.Fatal] if the turn ends in
    one. *)
Definition turn (d : Delivery) : list string * option error :=
  let waiting := ["Waiting for message..."]%list in
  let got := (waiting ++ ["Got new message."; "Decompressing body..."])%list in
  let read := (got ++ ["Unmarshalling XML..."])%list in
  match d with
  | SubscriptionError e => (waiting, Some (ExternalError e))
  | ReadError e => (got, Some (ExternalError e))
  | UnmarshalError e => (read, Some (ExternalError e))
  | Document body m =>
      let decoded := (read ++ [body; "---------------"])%list in
      match Message_String m with
      | Ret s => ((decoded ++ [(s ++ nl ++ nl)%string])%list, None)
      | Fatal e => (decoded, Some e)
      end
  end.

(** How the process ends: [log.Fatal] in some turn, or the loop is left. *)
Inductive Exit : Type :=
| Exited (err : error)
| LoopEnded.

(** The loop over the deliveries of its time window: the texts logged, and
    how it ends. *)
Fixpoint feed (ds : list Delivery) : list string * Exit :=
  match ds with
  | [] => ([], LoopEnded)
  | d :: ds' =>
      match turn d with
      | (out, Some e) => (out, Exited e)
      | (out, None) =>
          let '(out', x) := feed ds' in ((out ++ out')%list, x)
      end
  end.

(* ================================================================== *)
(** * Vocabulary of the statements *)

(** The clock fields are those of a time of day. *)
Definition clock_ok (k : GoTime.Clock) : Prop :=
  0 <= GoTime.hour k < 24 /\ 0 <= GoTime.min k < 60
  /\ 0 <= GoTime.sec k < 60 /\ 0 <= GoTime.nsec k < GoTime.Second.

(** The value lies within 1 January of year 0. *)
Definition inDay (t : GoTime.Time) : Prop :=
  GoTime.yearZero <= GoTime.tsec t < GoTime.yearZero + 86400
  /\ 0 <= GoTime.tnsec t < GoTime.Second.

(** The delay of an actual time against a scheduled reference time: both
    are parsed, each with the layout of its side, and the difference is
    given in minutes. *)
Definition delay_against (at_ sched : string) : outcome float64 :=
  actual <- parseOrFatal (actualForm at_) at_ ;;
  est <- parseOrFatal (schedForm sched) sched ;;
  Ret (Minutes (GoTime.Sub actual est)).

(** The scheduled reference time: [PTA] if it is set, else [WTA] if it is
    set. *)
Definition reference (l : Location) : option string :=
  if nonempty (PTA l) then Some (PTA l)
  else if nonempty (WTA l) then Some (WTA l)
  else None.

(** No delay is computable: the Arrival event is absent, its actual time is
    empty, or there is neither [PTA] nor [WTA]. *)
Definition no_delay_computable (l : Location) : Prop :=
  Arrival l = Event_zero \/ AT (Arrival l) = ""
  \/ (PTA l = "" /\ WTA l = "").

(** The actual time, if there is one, parses with its layout. *)
Definition actual_readable (l : Location) : Prop :=
  AT (Arrival l) = ""
  \/ exists t, GoTime.Parse (actualForm (AT (Arrival l))) (AT (Arrival l)) = inl t.

(** A genuine delay of zero minutes: the actual time and the reference time
    are both there and parse to the same time of day. *)
Definition zero_minute_delay (l : Location) : Prop :=
  nonempty (AT (Arrival l)) = true
  /\ exists sched t,
      reference l = Some sched
      /\ GoTime.Parse (actualForm (AT (Arrival l))) (AT (Arrival l)) = inl t
      /\ GoTime.Parse (schedForm sched) sched = inl t.

(** Locations of the scenarios. *)
Definition no_event : Event := Event_zero.

Definition loc_late : Location :=
  mkLocation "EUSTON" "10:00" "10:02" "09:59:30" "" "" (mkEvent "10:07" "" "TD")
             no_event no_event.

Definition loc_early : Location :=
  mkLocation "EUSTON" "10:00" "" "" "" "" (mkEvent "09:58" "" "") no_event no_event.

Definition loc_on_time : Location :=
  mkLocation "EUSTON" "09:05" "" "" "" "" (mkEvent "09:05" "" "") no_event no_event.

Definition loc_working_only : Location :=
  mkLocation "WATFDJ" "" "" "10:00:30" "" "" (mkEvent "10:07" "" "") no_event no_event.

Definition loc_no_arrival : Location :=
  mkLocation "EUSTON" "10:00" "" "" "" "" no_event no_event no_event.

Definition loc_estimate_only : Location :=
  mkLocation "EUSTON" "10:00" "" "10:00" "" "" (mkEvent "" "10:09" "Darwin")
             no_event no_event.

Definition loc_no_reference : Location :=
  mkLocation "EUSTON" "" "10:02" "" "" "" (mkEvent "10:07" "" "") no_event no_event.

Definition loc_bad_actual_no_reference : Location :=
  mkLocation "EUSTON" "" "" "" "" "" (mkEvent "9:5" "" "") no_event no_event.


Definition loc_seconds : Location :=
  mkLocation "EUSTON" "10:00:00" "" "" "" "" (mkEvent "10:07:30" "" "")
             no_event no_event.

(** [s] has no line break. *)
Fixpoint no_LF (s : string) : bool :=
  match s with
  | EmptyString => true
  | String c s' => (negb (Ascii.eqb c LF) && no_LF s')%bool
  end.

Definition Event_one_line (e : Event) : bool :=
  (no_LF (AT e) && no_LF (ET e) && no_LF (SRC e))%bool.

(** No field text of the Location holds a line break. *)
Definition fields_one_line (l : Location) : bool :=
  (no_LF (TPL l) && no_LF (PTA l) && no_LF (PTD l) && no_LF (WTA l)
   && no_LF (WTD l) && no_LF (WTP l) && Event_one_line (Arrival l)
   && Event_one_line (Departure l) && Event_one_line (Pass l))%bool.

(** The text has a delay annotation line: a line break followed by
    [DELAY: ]. *)
Definition has_annotation (text : string) : Prop :=
  exists pre post, text = pre ++ nl ++ "DELAY: " ++ post.

(** A scan for a line that starts with [D]: [after_nl] says that the last
    character read was a line break; [None] when such a line is found, else
    the state at the end. *)
Fixpoint scan (after_nl : bool) (s : string) : option bool :=
  match s with
  | EmptyString => Some after_nl
  | String c s' =>
      if (after_nl && Ascii.eqb c "D")%bool then None
      else scan (Ascii.eqb c LF) s'
  end.

(** No line of [s] after the first starts with [D], and [s] does not end in
    a line break. *)
Definition tame (s : string) : Prop := scan false s = Some false.

(** The rendered texts of [loc_late], [loc_early] and [loc_on_time]. *)
Definition text_late : string :=
  nl ++ "-- EUSTON | Public Time Arrive: 10:00 | Public Time Depart: 10:02"
     ++ " | Working Time Arrive: 09:59:30"
     ++ nl ++ tab ++ "** Arr: ACTUAL 10:07  (Source: TD)"
     ++ nl ++ "DELAY: 7.000000" ++ nl.

Definition text_early : string :=
  nl ++ "-- EUSTON | Public Time Arrive: 10:00"
     ++ nl ++ tab ++ "** Arr: ACTUAL 09:58 " ++ nl.

Definition text_on_time : string :=
  nl ++ "-- EUSTON | Public Time Arrive: 09:05"
     ++ nl ++ tab ++ "** Arr: ACTUAL 09:05 " ++ nl.

(** The texts logged in a turn before the decoded message is rendered. *)
Definition turn_log (body : string) : list string :=
  ["Waiting for message..."; "Got new message."; "Decompressing body...";
   "Unmarshalling XML..."; body; "---------------"]%list.

(** Scenario D: an actual time of invalid form. *)
Definition loc_bad_actual : Location :=
  mkLocation "EUSTON" "10:00" "" "" "" "" (mkEvent "9:5" "" "") no_event no_event.

Definition msg_of (l : Location) : Message :=
  mkMessage "" "" "" "2019-02-01T10:08:00" "12.0"
            (mkUniqueResponse "TD" (mkTimestamp "201902017159276" "2019-02-01" "W59276" [l])).

Definition msg_bad : Message := msg_of loc_bad_actual.
Definition msg_good : Message := msg_of loc_late.

(** A message with two Locations whose times do not parse, after one that
    renders: [loc_bad_actual] comes first, [loc_seconds] second. *)
Definition msg_two_bad : Message :=
  mkMessage "" "" "" "2019-02-01T10:08:00" "12.0"
            (mkUniqueResponse "TD"
               (mkTimestamp "201902017159276" "2019-02-01" "W59276"
                            [loc_late; loc_bad_actual; loc_seconds])).

(** A Location with no Arrival event whose location code holds a line
    break followed by the text of an annotation. *)
Definition loc_injected : Location :=
  mkLocation ("X" ++ nl ++ "DELAY: 9.000000") "" "" "" "" ""
             no_event no_event no_event.

(** ** Vocabulary of the further properties *)

(** Plus or minus infinity, or a finite number of the sign [s] whose
    exponent is at least [lo]: never a zero, never a NaN. *)
Definition finf (s : bool) (lo : Z) (x : float64) : Prop :=
  x = S754_infinity s
  \/ exists m e, x = S754_finite s m e /\ lo <= e.

(** [x < 0] on [float64]. *)
Definition lt0 (x : float64) : bool := SFltb x (S754_zero false).

(** [t] is later in the day than [u]. *)
Definition later (t u : GoTime.Time) : Prop :=
  GoTime.tsec u < GoTime.tsec t
  \/ (GoTime.tsec u = GoTime.tsec t /\ GoTime.tnsec u < GoTime.tnsec t).

(** [f] holds on the [n] integers from [lo] on. *)
Fixpoint all_from (n : nat) (lo : Z) (f : Z -> bool) : bool :=
  match n with
  | O => true
  | S n' => (f lo && all_from n' (lo + 1) f)%bool
  end.

(** [sub] occurs in [s]. *)
Definition contains (sub s : string) : Prop :=
  exists pre post, s = pre ++ sub ++ post.

(** The text [Timestamp.String] has before its loop over the Locations:
    each identifier that is set replaces what is there. *)
Definition Timestamp_ids (t : Timestamp) : string :=
  let s := "" in
  let s := if nonempty (RID t) then "RID: " ++ RID t ++ " " else s in
  let s := if nonempty (SSD t) then "SSD: " ++ SSD t ++ " " else s in
  let s := if nonempty (UID t) then "UID: " ++ UID t ++ " " else s in
  s.

(** A delivery that is decoded and whose message renders. *)
Definition renders (d : Delivery) : Prop :=
  exists body m text, d = Document body m /\ Message_String m = Ret text.

(** A number below 100 in two decimal digits. *)
Definition two_digits (n : Z) : string :=
  String (ascii_of_nat (48 + Z.to_nat (n / 10)))
         (String (ascii_of_nat (48 + Z.to_nat (n mod 10))) "").

(** The clock time [hh:mm]. *)
Definition clock_text (h m : Z) : string :=
  two_digits h ++ ":" ++ two_digits m.

(** The clock time [hh:mm:ss]. *)
Definition clock_text_seconds (h m s : Z) : string :=
  two_digits h ++ ":" ++ two_digits m ++ ":" ++ two_digits s.

(** A Timestamp of one Location. *)
Definition ts_late : Timestamp :=
  mkTimestamp "201902017159276" "" "" [loc_late].

(* ================================================================== *)
(** * Facts about the library part *)

Lemma append_assoc (a b c : string) : (a ++ b) ++ c = a ++ b ++ c.
Proof. induction a as [|x a IH]; simpl; [reflexivity | now rewrite IH]. Qed.

Lemma append_nil_r (a : string) : a ++ "" = a.
Proof. induction a as [|x a IH]; simpl; [reflexivity | now rewrite IH]. Qed.

Lemma nonempty_false (s : string) : nonempty s = false <-> s = "".
Proof. destruct s; simpl; split; congruence. Qed.

Lemma nonempty_true (s : string) : nonempty s = true <-> s <> "".
Proof. destruct s; simpl; split; congruence. Qed.

(** The three layouts of [Delay], cut into their codes: the seconds of
    [15:04:05] are a code, the [:00] of [15:04:00] is literal text. *)
Example layout_1504 :
  GoTime.nextStdChunk "15:04" = ("", GoTime.stdHour, ":04")
  /\ GoTime.nextStdChunk ":04" = (":", GoTime.stdZeroMinute, "")
  /\ GoTime.nextStdChunk "" = ("", GoTime.stdNone, "").
Proof. repeat split. Qed.

Example layout_150405 :
  GoTime.nextStdChunk "15:04:05" = ("", GoTime.stdHour, ":04:05")
  /\ GoTime.nextStdChunk ":04:05" = (":", GoTime.stdZeroMinute, ":05")
  /\ GoTime.nextStdChunk ":05" = (":", GoTime.stdZeroSecond, "").
Proof. repeat split. Qed.

Example layout_150400 :
  GoTime.nextStdChunk "15:04:00" = ("", GoTime.stdHour, ":04:00")
  /\ GoTime.nextStdChunk ":04:00" = (":", GoTime.stdZeroMinute, ":00")
  /\ GoTime.nextStdChunk ":00" = (":00", GoTime.stdNone, "").
Proof. repeat split. Qed.

(** A layout code uses up at least one character of the layout. *)
Lemma nextStdChunk_shorter (layout prefix suffix : string) (std : GoTime.Std) :
  GoTime.nextStdChunk layout = (prefix, std, suffix) ->
  std <> GoTime.stdNone ->
  (String.length suffix < String.length layout)%nat.
Proof.
  revert prefix suffix std.
  induction layout as [|c rest IH]; intros prefix suffix std H Hstd.
  - simpl in H. inversion H; subst. congruence.
  - simpl in H.
    destruct (GoTime.nextStdChunk rest) as [[p s] suf] eqn:E.
    assert (Hlater : (String c p, s, suf) = (prefix, std, suffix) ->
                     (String.length suffix < String.length (String c rest))%nat).
    { intros H'. inversion H'; subst.
      specialize (IH _ _ _ eq_refl Hstd). simpl. lia. }
    repeat match type of H with
           | (if ?b then _ else _) = _ => destruct b
           | (match ?x with EmptyString => _ | String _ _ => _ end) = _ =>
               destruct x
           end;
      try (apply Hlater; exact H);
      inversion H; subst; simpl; lia.
Qed.

(** Fuel above the length of the layout is never used up. *)
Lemma parseLoop_fuel (fuel : nat) (alayout avalue : string) :
  forall (layout value : string) (k : GoTime.Clock),
    (String.length layout < fuel)%nat ->
    GoTime.parseLoop fuel alayout avalue layout value k <> None.
Proof.
  induction fuel as [|fuel IH]; intros layout value k Hlen; [lia|].
  cbn [GoTime.parseLoop]. unfold GoTime.parseStep.
  destruct (GoTime.nextStdChunk layout) as [[prefix std] suffix] eqn:E.
  cbv beta iota zeta.
  assert (Hs : std <> GoTime.stdNone ->
               (String.length suffix < fuel)%nat).
  { intros Hstd. pose proof (nextStdChunk_shorter _ _ _ _ E Hstd). lia. }
  destruct (GoTime.skip value prefix) as [value' [|]]; [|discriminate].
  destruct std; cbv beta iota zeta;
    repeat match goal with
           | |- (let '(_, _) := ?x in _) <> None => destruct x
           | |- (if ?b then _ else _) <> None => destruct b
           | |- (match ?x with GoTime.noerr => _ | GoTime.errBad => _ end)
                <> None => destruct x
           | |- (match ?x with EmptyString => _ | String _ _ => _ end)
                <> None => destruct x
           end;
    try discriminate; apply IH; apply Hs; discriminate.
Qed.

(** [Parse] is the result of its loop: the loop always ends. *)
Lemma Parse_loop (layout value : string) :
  GoTime.parseLoop (S (String.length layout)) layout value layout value
                   (GoTime.mkClock 0 0 0 0)
  = Some (GoTime.Parse layout value).
Proof.
  unfold GoTime.Parse.
  destruct (GoTime.parseLoop _ _ _ _ _ _) eqn:E; [reflexivity|].
  exfalso. revert E. apply parseLoop_fuel. lia.
Qed.

(** ** The values [Parse] returns lie within one day *)

Lemma digitVal_range (c : ascii) :
  GoTime.isDigitChar c = true -> 0 <= GoTime.digitVal c <= 9.
Proof.
  unfold GoTime.isDigitChar, GoTime.between, GoTime.digitVal.
  intros H. apply andb_true_iff in H. destruct H as [H1 H2].
  apply Nat.leb_le in H1, H2.
  change (nat_of_ascii "0") with 48%nat in H1.
  change (nat_of_ascii "9") with 57%nat in H2. lia.
Qed.

Lemma atoi_from_range (n : nat) :
  forall (s : string) (acc : Z),
    (n <= GoTime.digitRun s)%nat -> 0 <= acc ->
    0 <= GoTime.atoi_from acc (take n s) < (acc + 1) * 10 ^ Z.of_nat n.
Proof.
  induction n as [|n IH]; intros s acc Hrun Hacc.
  - simpl. lia.
  - destruct s as [|c s]; simpl in Hrun; [lia|].
    destruct (GoTime.isDigitChar c) eqn:Hc; [|lia].
    pose proof (digitVal_range c Hc) as Hd.
    cbn [take GoTime.atoi_from].
    assert (Hn : (n <= GoTime.digitRun s)%nat) by lia.
    specialize (IH s (acc * 10 + GoTime.digitVal c) Hn ltac:(lia)).
    rewrite Nat2Z.inj_succ, Z.pow_succ_r by lia.
    assert (0 < 10 ^ Z.of_nat n) by (apply Z.pow_pos_nonneg; lia).
    nia.
Qed.

Lemma parseNanoseconds_range (c0 : ascii) (rest : string) :
  GoTime.isDigit (String c0 rest) 1 = true ->
  0 <= GoTime.parseNanoseconds (String c0 rest)
         (S (GoTime.digitRun (drop 1 (String c0 rest))))
    < GoTime.Second.
Proof.
  intros Hd. unfold GoTime.parseNanoseconds. cbn [drop].
  assert (Hrun : (1 <= GoTime.digitRun rest)%nat).
  { destruct rest as [|c1 r]; [discriminate|].
    unfold GoTime.isDigit in Hd. simpl in Hd. simpl. rewrite Hd. lia. }
  set (n := Nat.min (S (GoTime.digitRun rest)) 10).
  assert (Hn : (2 <= n <= 10)%nat) by (unfold n; lia).
  assert (Hk : (n - 1 <= GoTime.digitRun rest)%nat) by (unfold n; lia).
  pose proof (atoi_from_range (n - 1) rest 0 Hk ltac:(lia)) as Ha.
  assert (Hp : 10 ^ Z.of_nat (n - 1) * 10 ^ Z.of_nat (10 - n) = 10 ^ 9).
  { rewrite <- Z.pow_add_r by lia. f_equal. lia. }
  assert (0 < 10 ^ Z.of_nat (10 - n)) by (apply Z.pow_pos_nonneg; lia).
  unfold GoTime.Second. change 1000000000 with (10 ^ 9).
  nia.
Qed.

Lemma range_check (x hi : Z) :
  ((x <? 0) || (hi <=? x))%bool = false -> 0 <= x < hi.
Proof.
  intros H. apply orb_false_iff in H. destruct H as [H1 H2].
  apply Z.ltb_ge in H1. apply Z.leb_gt in H2. lia.
Qed.

Lemma parseLoop_inDay (fuel : nat) (alayout avalue : string) :
  forall (layout value : string) (k : GoTime.Clock) (t : GoTime.Time),
    clock_ok k ->
    GoTime.parseLoop fuel alayout avalue layout value k = Some (inl t) ->
    inDay t.
Proof.
  induction fuel as [|fuel IH]; intros layout value k t Hk H; [discriminate|].
  cbn [GoTime.parseLoop] in H. unfold GoTime.parseStep in H.
  destruct (GoTime.nextStdChunk layout) as [[prefix std] suffix].
  cbv beta iota zeta in H.
  destruct (GoTime.skip value prefix) as [value' [|]]; [|discriminate].
  destruct Hk as (Hh & Hm & Hs & Hn).
  destruct std; cbv beta iota zeta in H;
    repeat match type of H with
           | (let '(_, _) := ?x in _) = _ => destruct x
           | (if ?b then _ else _) = _ => destruct b eqn:?
           | (match ?x with GoTime.noerr => _ | GoTime.errBad => _ end) = _ =>
               destruct x
           | (match ?x with EmptyString => _ | String _ _ => _ end) = _ =>
               destruct x
           end;
    try discriminate;
    repeat match goal with
           | Hr : ((_ <? 0) || (_ <=? _))%bool = false |- _ =>
               apply range_check in Hr
           end.
  all: unfold clock_ok, inDay, GoTime.Second in *.
  all: first
    [ (* a code was read: the loop goes on with the new clock *)
      eapply IH; [|exact H];
      cbn [GoTime.hour GoTime.min GoTime.sec GoTime.nsec];
      try match goal with
          | Hc : (_ && GoTime.isDigit _ 1)%bool = true |- _ =>
              apply andb_true_iff in Hc; destruct Hc as [_ Hc];
              pose proof (parseNanoseconds_range _ _ Hc) as Hns;
              unfold GoTime.Second in Hns
          end;
      lia
    | (* no code left: the value is built *)
      inversion H; subst;
      unfold GoTime.Date0, GoTime.yearZero;
      cbn [GoTime.tsec GoTime.tnsec]; lia ].
Qed.

Lemma Parse_inDay (layout value : string) (t : GoTime.Time) :
  GoTime.Parse layout value = inl t -> inDay t.
Proof.
  intros H. pose proof (Parse_loop layout value) as L. rewrite H in L.
  apply (parseLoop_inDay _ _ _ _ _ _ t) in L; [exact L|].
  unfold clock_ok, GoTime.Second.
  cbn [GoTime.hour GoTime.min GoTime.sec GoTime.nsec]. lia.
Qed.

(** The difference of two values of one day is far from the bounds of
    [int64], where [Time.Sub] would saturate. *)
Lemma Sub_small (t u : GoTime.Time) :
  inDay t -> inDay u -> - 2 ^ 47 < GoTime.Sub t u < 2 ^ 47.
Proof.
  unfold inDay, GoTime.Sub, GoTime.Second. intros [Ht1 Ht2] [Hu1 Hu2].
  change (2 ^ 47) with 140737488355328. lia.
Qed.

(* ================================================================== *)
(** * [Delay] *)

Lemma present_actual (e : Event) : nonempty (AT e) = true -> present e = true.
Proof. destruct e as [[|c a] et src]; simpl; [discriminate|reflexivity]. Qed.

Lemma present_zero : present Event_zero = false.
Proof. reflexivity. Qed.

(** [Delay] reads the Arrival event through its actual time only: the test
    for an absent event and the test for an empty actual time together are
    the test for an empty actual time. *)
Lemma Delay_by_fields (l : Location) :
  Delay l =
  if nonempty (AT (Arrival l)) then
    actual <- parseOrFatal (actualForm (AT (Arrival l))) (AT (Arrival l)) ;;
    match reference l with
    | Some sched =>
        est <- parseOrFatal (schedForm sched) sched ;;
        Ret (Minutes (GoTime.Sub actual est))
    | None => Ret d_zero
    end
  else Ret d_zero.
Proof.
  unfold Delay, reference.
  destruct (nonempty (AT (Arrival l))) eqn:Hat.
  - rewrite (present_actual _ Hat). cbn [negb].
    destruct (parseOrFatal _ _); cbn [bind]; [|reflexivity].
    destruct (nonempty (PTA l)); [reflexivity|].
    destruct (nonempty (WTA l)); reflexivity.
  - cbn [negb]. destruct (present (Arrival l)); reflexivity.
Qed.

Lemma Sub_same (t : GoTime.Time) : GoTime.Sub t t = 0.
Proof. unfold GoTime.Sub. rewrite !Z.sub_diag. reflexivity. Qed.

(** C8.  For every Location whose Arrival event is absent (the zero-value
    Event) or whose Arrival actual-time field is empty, [Delay] returns the
    undefined outcome, the zero value of its result, whatever the estimated
    time says. *)
Theorem Delay_undefined_without_actual (l : Location) :
  Arrival l = Event_zero \/ AT (Arrival l) = "" ->
  Delay l = Ret d_zero.
Proof.
  intros H. rewrite Delay_by_fields.
  assert (Hat : AT (Arrival l) = "") by (destruct H as [H|H]; [now rewrite H|exact H]).
  rewrite Hat. reflexivity.
Qed.

Lemma Delay_undefined_without_actual_witness :
  Delay loc_no_arrival = Ret d_zero /\ Delay loc_estimate_only = Ret d_zero.
Proof.
  split.
  - exact (Delay_undefined_without_actual loc_no_arrival (or_introl eq_refl)).
  - exact (Delay_undefined_without_actual loc_estimate_only (or_intror eq_refl)).
Defined.

(** C10.  [Delay] depends only on the Arrival event's actual time, [PTA]
    and [WTA]: two Locations that agree on these three get the same result,
    whatever their other fields. *)
Theorem Delay_depends_only_on_AT_PTA_WTA (l1 l2 : Location) :
  AT (Arrival l1) = AT (Arrival l2) ->
  PTA l1 = PTA l2 ->
  WTA l1 = WTA l2 ->
  Delay l1 = Delay l2.
Proof.
  intros Hat Hpta Hwta. rewrite !Delay_by_fields. unfold reference.
  rewrite Hat, Hpta, Hwta. reflexivity.
Qed.

Lemma Delay_depends_only_on_AT_PTA_WTA_witness :
  Delay loc_late
  = Delay (mkLocation "KGX" "10:00" "23:59" "09:59:30" "xx" "00:00"
                      (mkEvent "10:07" "10:30" "CIS")
                      (mkEvent "11:00" "" "") (mkEvent "" "12:00" "")).
Proof.
  exact (Delay_depends_only_on_AT_PTA_WTA loc_late _ eq_refl eq_refl eq_refl).
Defined.

(** C1, as the code has it.  For every Location whose Arrival event has a
    non-empty actual time: with [PTA] set the delay is taken against [PTA];
    with [PTA] empty and [WTA] set it is taken against [WTA]; with both
    empty the result is undefined if the actual time parses, and the parse
    error of the actual time is fatal if it does not (the actual time is
    parsed before the reference is chosen). *)
Theorem Delay_reference_choice (l : Location) :
  nonempty (AT (Arrival l)) = true ->
  (nonempty (PTA l) = true ->
   Delay l = delay_against (AT (Arrival l)) (PTA l))
  /\ (PTA l = "" -> nonempty (WTA l) = true ->
      Delay l = delay_against (AT (Arrival l)) (WTA l))
  /\ (PTA l = "" -> WTA l = "" ->
      match GoTime.Parse (actualForm (AT (Arrival l))) (AT (Arrival l)) with
      | inl _ => Delay l = Ret d_zero
      | inr e => Delay l = Fatal (TimeFormatError e)
      end).
Proof.
  intros Hat. rewrite Delay_by_fields, Hat. unfold reference, delay_against.
  split; [|split].
  - intros Hp. rewrite Hp. reflexivity.
  - intros Hp Hw. rewrite Hp, Hw. reflexivity.
  - intros Hp Hw. rewrite Hp, Hw. cbn [nonempty]. unfold parseOrFatal.
    destruct (GoTime.Parse _ _); reflexivity.
Qed.

Lemma Delay_reference_choice_witness :
  Delay loc_late = delay_against (AT (Arrival loc_late)) (PTA loc_late)
  /\ Delay loc_working_only
     = delay_against (AT (Arrival loc_working_only)) (WTA loc_working_only)
  /\ Delay loc_no_reference = Ret d_zero.
Proof.
  split; [|split].
  - exact (proj1 (Delay_reference_choice loc_late eq_refl) eq_refl).
  - exact (proj1 (proj2 (Delay_reference_choice loc_working_only eq_refl))
                 eq_refl eq_refl).
  - pose proof (proj2 (proj2 (Delay_reference_choice loc_no_reference eq_refl))
                      eq_refl eq_refl) as H.
    vm_compute in H. vm_compute. exact H.
Defined.

(** C1 as stated fails: a non-empty actual time that does not parse, with
    neither [PTA] nor [WTA], is not answered by the undefined outcome. *)
Lemma Delay_unreadable_actual_without_reference :
  nonempty (AT (Arrival loc_bad_actual_no_reference)) = true
  /\ PTA loc_bad_actual_no_reference = ""
  /\ WTA loc_bad_actual_no_reference = ""
  /\ Delay loc_bad_actual_no_reference <> Ret d_zero
  /\ Delay loc_bad_actual_no_reference
     = Fatal (TimeFormatError
                (GoTime.newParseError "15:04:00" "9:5" "04" "5" GoTime.MsgNone)).
Proof.
  split; [reflexivity|]. split; [reflexivity|]. split; [reflexivity|].
  split; vm_compute; [discriminate|reflexivity].
Qed.

(** C2, as the code has it.  [Delay] has one [float64] result and no absent
    value: for a Location with no delay computable (whose actual time, if
    any, parses) it returns 0.0, and for a Location whose actual and
    reference times coincide it returns 0.0 as well. *)
Theorem Delay_undefined_is_zero (l l0 : Location) :
  no_delay_computable l ->
  actual_readable l ->
  zero_minute_delay l0 ->
  Delay l = Ret d_zero /\ Delay l0 = Ret d_zero.
Proof.
  intros Hno Hread (Hat0 & sched & t & Href & Hact & Hsch). split.
  - rewrite Delay_by_fields.
    destruct (nonempty (AT (Arrival l))) eqn:Hat; [|reflexivity].
    apply nonempty_true in Hat.
    destruct Hread as [He|[t' Ht']]; [contradiction|].
    unfold parseOrFatal. rewrite Ht'. cbn [bind].
    destruct Hno as [Hz|[He|[Hp Hw]]].
    + rewrite Hz in Hat. now elim Hat.
    + contradiction.
    + unfold reference. rewrite Hp, Hw. reflexivity.
  - rewrite Delay_by_fields, Hat0, Href. unfold parseOrFatal.
    rewrite Hact, Hsch. cbn [bind]. rewrite Sub_same.
    vm_compute. reflexivity.
Qed.

Lemma zero_minute_delay_on_time : zero_minute_delay loc_on_time.
Proof.
  split; [reflexivity|].
  exists "09:05", (GoTime.Date0 9 5 0 0).
  split; [reflexivity|]. split; vm_compute; reflexivity.
Qed.

Lemma Delay_undefined_is_zero_witness :
  Delay loc_no_reference = Ret d_zero /\ Delay loc_on_time = Ret d_zero.
Proof.
  apply (Delay_undefined_is_zero loc_no_reference loc_on_time).
  - right. right. split; reflexivity.
  - right. exists (GoTime.Date0 10 7 0 0). vm_compute. reflexivity.
  - exact zero_minute_delay_on_time.
Defined.

(** C2 as stated fails: the result for a Location with no Arrival event and
    the result for a Location that arrived on the minute are the same
    value, so a caller cannot tell them apart. *)
Lemma undefined_delay_is_not_distinct :
  no_delay_computable loc_no_arrival
  /\ zero_minute_delay loc_on_time
  /\ Delay loc_no_arrival = Delay loc_on_time.
Proof.
  split; [left; reflexivity|].
  split; [exact zero_minute_delay_on_time|vm_compute; reflexivity].
Qed.

(* ================================================================== *)
(** * Rendering of a Location *)

Lemma scan_app (s1 s2 : string) :
  forall b, scan b (s1 ++ s2)
            = match scan b s1 with Some b' => scan b' s2 | None => None end.
Proof.
  induction s1 as [|c s1 IH]; intros b; simpl; [reflexivity|].
  destruct (b && Ascii.eqb c "D")%bool; [reflexivity|apply IH].
Qed.

Lemma scan_marker (pre post : string) :
  forall b, scan b (pre ++ nl ++ "DELAY: " ++ post) = None.
Proof.
  induction pre as [|c pre IH]; intros b.
  - cbn. destruct b; reflexivity.
  - cbn [append scan]. destruct (b && Ascii.eqb c "D")%bool; [reflexivity|apply IH].
Qed.

Lemma tame_app (s1 s2 : string) : tame s1 -> tame s2 -> tame (s1 ++ s2).
Proof. unfold tame. intros H1 H2. now rewrite scan_app, H1. Qed.

Lemma tame_no_LF (s : string) : no_LF s = true -> tame s.
Proof.
  unfold tame. induction s as [|c s IH]; simpl; [reflexivity|].
  intros H. apply andb_true_iff in H. destruct H as [Hc Hs].
  apply negb_true_iff in Hc. rewrite Hc. auto.
Qed.

Lemma tame_option (b : bool) (s x : string) :
  tame s -> tame x -> tame (if b then s ++ x else s).
Proof. destruct b; auto using tame_app. Qed.

Lemma no_LF_app (s1 s2 : string) :
  no_LF (s1 ++ s2) = (no_LF s1 && no_LF s2)%bool.
Proof.
  induction s1 as [|c s1 IH]; simpl; [reflexivity|].
  now rewrite IH, andb_assoc.
Qed.

Lemma Event_String_one_line (e : Event) :
  Event_one_line e = true -> no_LF (Event_String e) = true.
Proof.
  unfold Event_one_line, Event_String. intros H.
  apply andb_true_iff in H. destruct H as [H Hs].
  apply andb_true_iff in H. destruct H as [Ha He].
  destruct (nonempty (AT e)), (nonempty (ET e)), (nonempty (SRC e));
    rewrite ?no_LF_app, ?Ha, ?He, ?Hs; reflexivity.
Qed.

Lemma Location_fields_tame (l : Location) :
  fields_one_line l = true -> tame (Location_fields l).
Proof.
  unfold fields_one_line. intros H.
  repeat match type of H with
         | (_ && _)%bool = true =>
             let H' := fresh "H" in
             apply andb_true_iff in H; destruct H as [H H']
         end.
  assert (Ta : tame (Event_String (Arrival l)))
    by (apply tame_no_LF, Event_String_one_line; assumption).
  assert (Td : tame (Event_String (Departure l)))
    by (apply tame_no_LF, Event_String_one_line; assumption).
  assert (Tp : tame (Event_String (Pass l)))
    by (apply tame_no_LF, Event_String_one_line; assumption).
  unfold Location_fields. cbv zeta.
  generalize dependent (Event_String (Arrival l)).
  generalize dependent (Event_String (Departure l)).
  generalize dependent (Event_String (Pass l)).
  intros ep Tp ed Td ea Ta.
  repeat apply tame_option.
  - change (tame ((nl ++ "-- ") ++ TPL l)).
    apply tame_app; [reflexivity|apply tame_no_LF; assumption].
  - apply tame_app; [reflexivity|apply tame_no_LF; assumption].
  - apply tame_app; [reflexivity|apply tame_no_LF; assumption].
  - apply tame_app; [reflexivity|apply tame_no_LF; assumption].
  - apply tame_app; [reflexivity|apply tame_no_LF; assumption].
  - apply tame_app; [reflexivity|apply tame_no_LF; assumption].
  - change (tame ((nl ++ tab ++ "** Arr: ") ++ ea)).
    apply tame_app; [reflexivity|assumption].
  - change (tame ((nl ++ tab ++ "** Dep: ") ++ ed)).
    apply tame_app; [reflexivity|assumption].
  - change (tame ((nl ++ tab ++ "** Pass: ") ++ ep)).
    apply tame_app; [reflexivity|assumption].
Qed.

(** A tame text closed by a line break has no annotation line. *)
Lemma tame_no_annotation (s : string) : tame s -> ~ has_annotation (s ++ nl).
Proof.
  intros Hs (pre & post & E).
  assert (Hscan : scan false (s ++ nl) = Some true)
    by (rewrite scan_app, Hs; reflexivity).
  rewrite E, scan_marker in Hscan. discriminate.
Qed.

(** [Location.String] in one piece: the fields, the annotation behind the
    gate [Delay() > 0], the closing line break. *)
Lemma Location_String_by_delay (l : Location) :
  Location_String l =
  d <- Delay l ;;
  Ret (Location_fields l
       ++ (if gt0 d then nl ++ "DELAY: " ++ fmt_f d else "") ++ nl).
Proof.
  unfold Location_String. destruct (Delay l) as [d|e] eqn:E; cbn [bind]; [|reflexivity].
  destruct (gt0 d); cbn [bind].
  - rewrite !append_assoc. reflexivity.
  - reflexivity.
Qed.


(** C6, as the code has it.  For every Location whose field texts (the
    location code, the five scheduled times and the fields of the three
    events) hold no line break and whose [Delay] returns, the Location
    renders, and the rendered text has a delay annotation line, a line
    starting with [DELAY: ], if and only if [Delay] returned a value
    strictly greater than zero.  The field texts are copied as they are, so
    the condition on them cannot be dropped. *)
Theorem Location_String_annotation_iff_late (l : Location) (d : float64) :
  fields_one_line l = true ->
  Delay l = Ret d ->
  exists text,
    Location_String l = Ret text
    /\ (has_annotation text <-> gt0 d = true).
Proof.
  intros Hone Hd. rewrite Location_String_by_delay, Hd. cbn [bind].
  eexists. split; [reflexivity|].
  destruct (gt0 d).
  - split; [reflexivity|]. intros _.
    exists (Location_fields l), (fmt_f d ++ nl). reflexivity.
  - split; [|discriminate]. intros Hann. exfalso.
    revert Hann. cbn [append]. apply tame_no_annotation.
    now apply Location_fields_tame.
Qed.

(** C6 as stated fails: a location code that holds a line break can carry
    the line of an annotation itself; the text then has such a line although
    [Delay] returned 0.0. *)
Lemma annotation_line_from_a_field :
  exists text d,
    Location_String loc_injected = Ret text
    /\ Delay loc_injected = Ret d
    /\ has_annotation text
    /\ gt0 d = false.
Proof.
  exists (nl ++ "-- X" ++ nl ++ "DELAY: 9.000000" ++ nl), d_zero.
  split; [vm_compute; reflexivity|]. split; [vm_compute; reflexivity|].
  split; [|reflexivity].
  exists (nl ++ "-- X"), ("9.000000" ++ nl). reflexivity.
Qed.

Lemma Location_String_late : Location_String loc_late = Ret text_late.
Proof. vm_compute. reflexivity. Qed.

(** Scenario B: two minutes early is a delay of -2.0, which renders as is. *)
Lemma Location_String_early :
  Delay loc_early = Ret (float64_of_Z (-2))
  /\ Location_String loc_early = Ret text_early.
Proof. split; vm_compute; reflexivity. Qed.

(** Boundary: on the minute is a delay of 0.0. *)
Lemma Location_String_on_time :
  Delay loc_on_time = Ret d_zero
  /\ Location_String loc_on_time = Ret text_on_time.
Proof. split; vm_compute; reflexivity. Qed.

Lemma Location_String_annotation_iff_late_witness :
  (exists text, Location_String loc_late = Ret text
                /\ (has_annotation text <-> gt0 (float64_of_Z 7) = true))
  /\ (exists text, Location_String loc_early = Ret text
                   /\ (has_annotation text <-> gt0 (float64_of_Z (-2)) = true))
  /\ (exists text, Location_String loc_on_time = Ret text
                   /\ (has_annotation text <-> gt0 d_zero = true)).
Proof.
  split; [|split].
  - apply (Location_String_annotation_iff_late loc_late (float64_of_Z 7));
      vm_compute; reflexivity.
  - apply (Location_String_annotation_iff_late loc_early (float64_of_Z (-2)));
      vm_compute; reflexivity.
  - apply (Location_String_annotation_iff_late loc_on_time d_zero);
      vm_compute; reflexivity.
Defined.

(** The texts of the early and of the punctual arrival have no annotation
    line. *)
Example no_annotation_unless_late :
  ~ has_annotation text_early /\ ~ has_annotation text_on_time.
Proof.
  split.
  - change text_early with (Location_fields loc_early ++ nl).
    apply tame_no_annotation, Location_fields_tame. reflexivity.
  - change text_on_time with (Location_fields loc_on_time ++ nl).
    apply tame_no_annotation, Location_fields_tame. reflexivity.
Qed.

(** C7.  For a Location with [PTA] 10:00 and an Arrival event whose actual
    time is 10:07, [Delay] returns exactly 7.0 minutes, and the rendered
    text ends with the annotation line [DELAY: 7.000000]. *)
Theorem Delay_seven_minutes_late (l : Location) :
  PTA l = "10:00" ->
  AT (Arrival l) = "10:07" ->
  Delay l = Ret (float64_of_Z 7)
  /\ exists pre,
      Location_String l = Ret (pre ++ nl ++ "DELAY: 7.000000" ++ nl).
Proof.
  intros Hp Ha.
  assert (Hd : Delay l = Ret (float64_of_Z 7)).
  { rewrite Delay_by_fields. unfold reference. rewrite Hp, Ha.
    vm_compute. reflexivity. }
  split; [exact Hd|].
  exists (Location_fields l).
  rewrite Location_String_by_delay, Hd. cbn [bind].
  replace (gt0 (float64_of_Z 7)) with true by (vm_compute; reflexivity).
  replace (fmt_f (float64_of_Z 7)) with "7.000000" by (vm_compute; reflexivity).
  reflexivity.
Qed.

Lemma Delay_seven_minutes_late_witness :
  Delay loc_late = Ret (float64_of_Z 7)
  /\ exists pre,
      Location_String loc_late = Ret (pre ++ nl ++ "DELAY: 7.000000" ++ nl).
Proof.
  exact (Delay_seven_minutes_late loc_late eq_refl eq_refl).
Defined.



(* ================================================================== *)
(** * The layouts with seconds *)

(** On a string of length 5 both sides choose the layout without
    seconds. *)
Lemma forms_of_length_5 (s : string) :
  String.length s = 5%nat -> actualForm s = "15:04" /\ schedForm s = "15:04".
Proof. intros H. unfold actualForm, schedForm. rewrite H. split; reflexivity. Qed.

Lemma parseLoop_S (fuel : nat) (al av layout value : string) (k : GoTime.Clock) :
  GoTime.parseLoop (S fuel) al av layout value k
  = GoTime.parseStep (GoTime.parseLoop fuel al av) al av layout value k.
Proof. reflexivity. Qed.

(** With the layout of the actual side, whatever parses has neither seconds
    nor a fraction: the text after the minutes must be [:00] itself. *)
Lemma Parse_actual_layout_no_seconds (v : string) (t : GoTime.Time) :
  GoTime.Parse "15:04:00" v = inl t ->
  exists h m, t = GoTime.Date0 h m 0 0.
Proof.
  intros H. pose proof (Parse_loop "15:04:00" v) as L. rewrite H in L. clear H.
  change (String.length "15:04:00") with 8%nat in L.
  destruct layout_150400 as (E1 & E2 & E3).
  rewrite parseLoop_S in L. unfold GoTime.parseStep in L at 1.
  rewrite E1 in L. cbv beta iota zeta in L.
  change (GoTime.skip v "") with (v, GoTime.noerr) in L.
  cbv beta iota zeta in L.
  destruct (GoTime.getnum v false) as [[h v1] e1].
  destruct ((h <? 0) || (24 <=? h))%bool; [discriminate|].
  destruct e1; [|discriminate].
  rewrite parseLoop_S in L. unfold GoTime.parseStep in L at 1.
  rewrite E2 in L. cbv beta iota zeta in L.
  destruct (GoTime.skip v1 ":") as [v2 [|]]; [|discriminate].
  cbv beta iota zeta in L.
  destruct (GoTime.getnum v2 true) as [[m v3] e3].
  destruct ((m <? 0) || (60 <=? m))%bool; [discriminate|].
  destruct e3; [|discriminate].
  rewrite parseLoop_S in L. unfold GoTime.parseStep in L at 1.
  rewrite E3 in L. cbv beta iota zeta in L.
  destruct (GoTime.skip v3 ":00") as [v4 [|]]; [|discriminate].
  cbv beta iota zeta in L.
  destruct (nonempty v4); [discriminate|].
  injection L as <-. cbn [GoTime.hour GoTime.min GoTime.sec GoTime.nsec].
  now exists h, m.
Qed.

(** C4, the code at the failing input.  An actual time with seconds 30 is
    parsed with the layout [15:04:00], whose [:00] is literal text: the parse
    fails and [Delay] ends in [log.Fatal].  The same string on the scheduled
    side is parsed with [15:04:05] and is read. *)
Theorem Delay_actual_with_seconds_is_fatal :
  actualForm "10:07:30" = "15:04:00"
  /\ schedForm "10:07:30" = "15:04:05"
  /\ GoTime.Parse (schedForm "10:07:30") "10:07:30"
     = inl (GoTime.Date0 10 7 30 0)
  /\ GoTime.Parse (actualForm "10:07:30") "10:07:30"
     = inr (GoTime.newParseError "15:04:00" "10:07:30" ":00" "30" GoTime.MsgNone)
  /\ Delay loc_seconds
     = Fatal (TimeFormatError
                (GoTime.newParseError "15:04:00" "10:07:30" ":00" "30"
                                      GoTime.MsgNone)).
Proof.
  split; [reflexivity|]. split; [reflexivity|].
  split; [vm_compute; reflexivity|]. split; vm_compute; reflexivity.
Qed.

(* ================================================================== *)
(** * Rendering of a Timestamp *)

(** Each identifier that is set replaces the text so far: with [UID] set,
    the text before the Locations is the [UID] alone. *)
Lemma Timestamp_String_UID (t : Timestamp) :
  nonempty (UID t) = true ->
  Timestamp_String t
  = Timestamp_locations ("UID: " ++ UID t ++ " ") (TS_Location t).
Proof. intros H. unfold Timestamp_String. rewrite H. reflexivity. Qed.

(** The Locations are appended in the order of the list, each after a line
    break. *)
Lemma Timestamp_locations_in_order (ls : list Location) :
  forall (ts : list string) (s : string),
    Forall2 (fun l t => Location_String l = Ret t) ls ts ->
    Timestamp_locations s ls
    = Ret (s ++ String.concat "" (map (fun t => nl ++ t) ts)).
Proof.
  induction ls as [|l ls IH]; intros ts s H;
    inversion H as [|? t ? ts' Hl Hls]; subst.
  - cbn [Timestamp_locations map String.concat]. now rewrite append_nil_r.
  - cbn [Timestamp_locations]. rewrite Hl. cbn [bind].
    rewrite (IH ts' _ Hls). f_equal.
    cbn [map]. destruct ts' as [|t' ts'].
    + cbn [map String.concat]. now rewrite !append_assoc, append_nil_r.
    + cbn [map String.concat]. cbn [append]. now rewrite !append_assoc.
Qed.

(** C5, the code at the failing input.  With [RID] and [UID] both set and
    no Location, the rendered text is the [UID] alone; the [RID] is not in
    it. *)
Theorem Timestamp_String_drops_RID :
  Timestamp_String (mkTimestamp "R1" "" "U1" []) = Ret "UID: U1 ".
Proof. reflexivity. Qed.

(* ================================================================== *)
(** * A time that does not parse, and the messages after it *)

Lemma Delay_fatal_is_TimeFormatError (l : Location) (e : error) :
  Delay l = Fatal e -> exists pe, e = TimeFormatError pe.
Proof.
  rewrite Delay_by_fields. unfold parseOrFatal.
  destruct (nonempty (AT (Arrival l))); [|discriminate].
  destruct (GoTime.Parse _ _) as [t|pe]; cbn [bind].
  - destruct (reference l) as [sched|]; [|discriminate].
    destruct (GoTime.Parse _ _) as [u|pe]; cbn [bind]; [discriminate|].
    intros H. injection H as <-. now exists pe.
  - intros H. injection H as <-. now exists pe.
Qed.

(** Rendering a Location is fatal exactly when its [Delay] is. *)
Lemma Location_String_fatal (l : Location) (e : error) :
  Location_String l = Fatal e <-> Delay l = Fatal e.
Proof.
  rewrite Location_String_by_delay.
  destruct (Delay l) as [d|e']; cbn [bind]; split; intros H;
    try discriminate; injection H as <-; reflexivity.
Qed.

(** A Location whose [Delay] is fatal makes the loop over the Locations
    fatal, at the first such Location. *)
Lemma Timestamp_locations_fatal (ls : list Location) :
  forall (l : Location) (e : error),
    In l ls -> Delay l = Fatal e ->
    exists l' e',
      In l' ls /\ Delay l' = Fatal e'
      /\ forall s, Timestamp_locations s ls = Fatal e'.
Proof.
  induction ls as [|h ls IH]; intros l e Hin Hd; [contradiction|].
  destruct (Location_String h) as [t|e0] eqn:Hh.
  - destruct Hin as [->|Hin].
    + apply Location_String_fatal in Hd. congruence.
    + destruct (IH l e Hin Hd) as (l' & e' & Hin' & Hd' & Hall).
      exists l', e'. split; [now right|]. split; [exact Hd'|].
      intros s. cbn [Timestamp_locations]. rewrite Hh. cbn [bind]. apply Hall.
  - exists h, e0. split; [now left|].
    split; [now apply Location_String_fatal|].
    intros s. cbn [Timestamp_locations]. rewrite Hh. reflexivity.
Qed.

Lemma feed_app (before rest : list Delivery) (out : list string) :
  feed before = (out, LoopEnded) ->
  feed (before ++ rest)%list
  = let '(out', x) := feed rest in ((out ++ out')%list, x).
Proof.
  revert out. induction before as [|d before IH]; intros out H.
  - cbn in H. injection H as <-. cbn [app]. now destruct (feed rest).
  - cbn [feed app] in *. destruct (turn d) as [o [e|]]; [discriminate|].
    destruct (feed before) as [o' x] eqn:E.
    injection H as <- ->. rewrite (IH o' eq_refl).
    destruct (feed rest) as [o'' x']. now rewrite app_assoc.
Qed.

(** The loop over the Locations is fatal at the first Location whose
    [Delay] is: the Locations before it render, and its error is the one
    the loop ends with. *)
Lemma Timestamp_locations_first_fatal (ls : list Location) :
  forall (l : Location) (e : error),
    In l ls -> Delay l = Fatal e ->
    exists ls1 l' ls2 e',
      ls = (ls1 ++ l' :: ls2)%list
      /\ (forall x, In x ls1 -> exists d, Delay x = Ret d)
      /\ Delay l' = Fatal e'
      /\ forall s, Timestamp_locations s ls = Fatal e'.
Proof.
  induction ls as [|h ls IH]; intros l e Hin Hd; [contradiction|].
  destruct (Location_String h) as [t|e0] eqn:Hh.
  - assert (Hl : In l ls).
    { destruct Hin as [->|Hin]; [|exact Hin].
      apply Location_String_fatal in Hd. congruence. }
    destruct (IH l e Hl Hd) as (ls1 & l' & ls2 & e' & -> & Hret & Hd' & Hall).
    exists (h :: ls1), l', ls2, e'. split; [reflexivity|].
    split; [|split; [exact Hd'|]].
    + intros x [<-|Hx]; [|now apply Hret].
      destruct (Delay h) as [d|eh] eqn:Hdh; [now exists d|].
      apply Location_String_fatal in Hdh. congruence.
    + intros s. cbn [Timestamp_locations app]. rewrite Hh. cbn [bind].
      apply Hall.
  - exists [], h, ls, e0. split; [reflexivity|].
    split; [intros x []|]. split; [now apply Location_String_fatal|].
    intros s. cbn [Timestamp_locations]. rewrite Hh. reflexivity.
Qed.

(** C3, as the code has it.  A time that does not parse in some Location of
    a message (whose update origin is set, so that it is rendered) ends the
    process.  The Locations split at the first one whose [Delay] is fatal:
    [Delay] returns for each Location before it, and its parse error is the
    [TimeFormatError] the process exits with.  The message is not rendered,
    the turn logs its texts up to the rendering only, and whatever is
    delivered after that message is not processed. *)
Theorem feed_ends_at_time_format_error
    (before after : list Delivery) (out : list string) (body : string)
    (m : Message) (l : Location) (e : error) :
  feed before = (out, LoopEnded) ->
  nonempty (UO (UR m)) = true ->
  In l (TS_Location (TS (UR m))) ->
  Delay l = Fatal e ->
  exists ls1 l' ls2 pe,
    TS_Location (TS (UR m)) = (ls1 ++ l' :: ls2)%list
    /\ (forall x, In x ls1 -> exists d, Delay x = Ret d)
    /\ Delay l' = Fatal (TimeFormatError pe)
    /\ Message_String m = Fatal (TimeFormatError pe)
    /\ feed (before ++ Document body m :: after)%list
       = ((out ++ turn_log body)%list, Exited (TimeFormatError pe)).
Proof.
  intros Hb Huo Hin Hd.
  destruct (Timestamp_locations_first_fatal _ l e Hin Hd)
    as (ls1 & l' & ls2 & e' & Hsplit & Hret & Hd' & Hall).
  destruct (Delay_fatal_is_TimeFormatError l' e' Hd') as [pe ->].
  exists ls1, l', ls2, pe. split; [exact Hsplit|]. split; [exact Hret|].
  split; [exact Hd'|].
  assert (Hm : Message_String m = Fatal (TimeFormatError pe)).
  { unfold Message_String. rewrite Huo.
    unfold UniqueResponse_String, Timestamp_String. rewrite Hall. reflexivity. }
  split; [exact Hm|].
  rewrite (feed_app _ _ _ Hb). cbn [feed turn]. rewrite Hm. reflexivity.
Qed.

Lemma feed_ends_at_time_format_error_witness :
  exists ls1 l' ls2 pe,
    TS_Location (TS (UR msg_two_bad)) = (ls1 ++ l' :: ls2)%list
    /\ (forall x, In x ls1 -> exists d, Delay x = Ret d)
    /\ Delay l' = Fatal (TimeFormatError pe)
    /\ Message_String msg_two_bad = Fatal (TimeFormatError pe)
    /\ feed ([Document "<a/>" msg_good] ++ Document "<b/>" msg_two_bad
               :: [Document "<c/>" msg_good])%list
       = ((fst (feed [Document "<a/>" msg_good]) ++ turn_log "<b/>")%list,
          Exited (TimeFormatError pe)).
Proof.
  apply (feed_ends_at_time_format_error
           [Document "<a/>" msg_good] [Document "<c/>" msg_good]
           (fst (feed [Document "<a/>" msg_good])) "<b/>" msg_two_bad
           loc_seconds
           (TimeFormatError
              (GoTime.newParseError "15:04:00" "10:07:30" ":00" "30"
                                    GoTime.MsgNone))).
  - vm_compute. reflexivity.
  - reflexivity.
  - right. right. left. reflexivity.
  - vm_compute. reflexivity.
Defined.

(** With two Locations that do not parse, the error of the exit is that of
    the first, [loc_bad_actual], not that of [loc_seconds] after it. *)
Example exit_error_is_of_the_first_Location :
  Delay loc_late = Ret (float64_of_Z 7)
  /\ Delay loc_bad_actual
     = Fatal (TimeFormatError
                (GoTime.newParseError "15:04:00" "9:5" "04" "5" GoTime.MsgNone))
  /\ Delay loc_seconds
     = Fatal (TimeFormatError
                (GoTime.newParseError "15:04:00" "10:07:30" ":00" "30"
                                      GoTime.MsgNone))
  /\ snd (feed [Document "<b/>" msg_two_bad; Document "<c/>" msg_good])
     = Exited (TimeFormatError
                 (GoTime.newParseError "15:04:00" "9:5" "04" "5"
                                       GoTime.MsgNone)).
Proof.
  split; [vm_compute; reflexivity|]. split; [vm_compute; reflexivity|].
  split; vm_compute; reflexivity.
Qed.

(** C3 as stated fails: a message that renders, delivered after a message
    with a time that does not parse, is not rendered; the process has
    exited. *)
Lemma time_format_error_blocks_next_message :
  exists text,
    Message_String msg_good = Ret text
    /\ In (text ++ nl ++ nl) (fst (feed [Document "<c/>" msg_good]))
    /\ ~ In (text ++ nl ++ nl)
            (fst (feed [Document "<b/>" msg_bad; Document "<c/>" msg_good]))
    /\ snd (feed [Document "<b/>" msg_bad; Document "<c/>" msg_good])
       = Exited (TimeFormatError
                   (GoTime.newParseError "15:04:00" "9:5" "04" "5"
                                         GoTime.MsgNone)).
Proof.
  eexists. split; [vm_compute; reflexivity|].
  split; [vm_compute; tauto|].
  split; [|vm_compute; reflexivity].
  vm_compute. intros H.
  repeat match type of H with
         | _ \/ _ => destruct H as [H|H]
         end; try discriminate H; exact H.
Qed.

(* ================================================================== *)
(** * The sign of [Minutes]

    [float64] rounding and division, followed through [SpecFloat]: a
    positive mantissa above the smallest exponent stays positive. *)

Lemma digits2_pos_lower (p : positive) :
  2 ^ (Zpos (digits2_pos p) - 1) <= Zpos p.
Proof.
  induction p as [p IH|p IH|]; cbn [digits2_pos].
  - rewrite Pos2Z.inj_succ. replace (Z.succ (Zpos (digits2_pos p)) - 1)
      with (Z.succ (Zpos (digits2_pos p) - 1)) by lia.
    rewrite Z.pow_succ_r by lia. rewrite (Pos2Z.inj_xI p). lia.
  - rewrite Pos2Z.inj_succ. replace (Z.succ (Zpos (digits2_pos p)) - 1)
      with (Z.succ (Zpos (digits2_pos p) - 1)) by lia.
    rewrite Z.pow_succ_r by lia. rewrite (Pos2Z.inj_xO p). lia.
  - reflexivity.
Qed.

Lemma shr_1_half (mrs : shr_record) :
  0 <= shr_m mrs -> shr_m (shr_1 mrs) = shr_m mrs / 2.
Proof.
  destruct mrs as [m r s]. cbn [shr_m shr_1]. intros Hm.
  destruct m as [|[p|p|]|p]; cbn [shr_m]; try lia.
  - reflexivity.
  - rewrite (Pos2Z.inj_xI p). apply Z.div_unique with 1; lia.
  - rewrite (Pos2Z.inj_xO p). apply Z.div_unique with 0; lia.
  - reflexivity.
Qed.

Lemma div_div_pos (a b c : Z) : 0 < b -> 0 < c -> a / b / c = a / (b * c).
Proof. intros Hb Hc. apply Z.div_div; lia. Qed.

Lemma shr_iter_div (p : positive) :
  forall mrs, 0 <= shr_m mrs ->
    shr_m (iter_pos shr_1 p mrs) = shr_m mrs / 2 ^ Zpos p.
Proof.
  assert (Hhalf : forall m, 0 <= m -> 0 <= m / 2)
    by (intros; apply Z.div_pos; lia).
  assert (Hpow : forall q, 0 < 2 ^ Zpos q)
    by (intros; apply Z.pow_pos_nonneg; lia).
  assert (Hdiv : forall m q, 0 <= m -> 0 <= m / 2 ^ Zpos q)
    by (intros; apply Z.div_pos; auto).
  induction p as [p IH|p IH|]; intros mrs Hm; cbn [iter_pos].
  - assert (H1 : 0 <= shr_m (shr_1 mrs)) by (rewrite shr_1_half; auto).
    assert (H2 : 0 <= shr_m (iter_pos shr_1 p (shr_1 mrs)))
      by (rewrite IH; auto).
    rewrite IH, IH, shr_1_half by auto.
    pose proof (Hpow p) as Hp.
    rewrite !div_div_pos by lia.
    f_equal. rewrite (Pos2Z.inj_xI p).
    replace (2 * Zpos p + 1) with (1 + Zpos p + Zpos p) by lia.
    rewrite !Z.pow_add_r by lia. change (2 ^ 1) with 2.
    generalize (2 ^ Zpos p). intros; lia.
  - assert (H2 : 0 <= shr_m (iter_pos shr_1 p mrs)) by (rewrite IH; auto).
    rewrite IH, IH by auto.
    rewrite div_div_pos by apply Hpow.
    f_equal. rewrite (Pos2Z.inj_xO p).
    replace (2 * Zpos p) with (Zpos p + Zpos p) by lia.
    rewrite Z.pow_add_r by lia. reflexivity.
  - rewrite shr_1_half by auto. reflexivity.
Qed.

Lemma finf_weaken (s : bool) (lo lo' : Z) (x : float64) :
  lo' <= lo -> finf s lo x -> finf s lo' x.
Proof.
  intros Hlo [H|(m & e & H & He)]; [now left|right].
  exists m, e. split; [exact H|lia].
Qed.

Lemma shr_record_of_loc_m (m : Z) (l : location) :
  shr_m (shr_record_of_loc m l) = m.
Proof. destruct l as [|[]]; reflexivity. Qed.

Lemma round_nearest_even_ge (m : Z) (l : location) :
  m <= round_nearest_even m l.
Proof.
  destruct l as [|[]]; cbn [round_nearest_even]; try lia.
  destruct (Z.even m); lia.
Qed.

(** Above the smallest exponent, the shift of [shr_fexp] leaves a positive
    mantissa positive and does not lower the exponent. *)
Lemma shr_fexp_pos (m : positive) (e : Z) (l : location) :
  emin prec emax <= e ->
  1 <= shr_m (fst (shr_fexp prec emax (Zpos m) e l))
  /\ e <= snd (shr_fexp prec emax (Zpos m) e l).
Proof.
  unfold shr_fexp, shr, fexp, emin, prec, emax. cbn [Zdigits2].
  intros He. pose proof (digits2_pos_lower m) as Hd.
  set (d := Zpos (digits2_pos m)) in *.
  destruct (Z.max (d + e - 53) (3 - 1024 - 53) - e) as [|n|n] eqn:Hn;
    cbn [fst snd]; rewrite ?shr_record_of_loc_m; try lia.
  rewrite shr_iter_div by (rewrite shr_record_of_loc_m; lia).
  rewrite shr_record_of_loc_m. split; [|lia].
  assert (Hle : 2 ^ Zpos n <= 2 ^ (d - 1)) by (apply Z.pow_le_mono_r; lia).
  assert (Hpos : 0 < 2 ^ Zpos n) by (apply Z.pow_pos_nonneg; lia).
  apply Z.div_le_lower_bound; lia.
Qed.

Lemma binary_round_aux_finf (sx : bool) (m : positive) (e : Z) (l : location) :
  emin prec emax <= e ->
  finf sx e (binary_round_aux prec emax sx (Zpos m) e l).
Proof.
  intros He. unfold binary_round_aux.
  pose proof (shr_fexp_pos m e l He) as [Hm1 He1].
  destruct (shr_fexp prec emax (Zpos m) e l) as [mrs' e'].
  cbn [fst snd] in Hm1, He1.
  pose proof (round_nearest_even_ge (shr_m mrs') (loc_of_shr_record mrs')) as Hr.
  destruct (round_nearest_even (shr_m mrs') (loc_of_shr_record mrs'))
    as [|m2|m2]; try lia.
  pose proof (shr_fexp_pos m2 e' loc_Exact ltac:(lia)) as [Hm2 He2].
  destruct (shr_fexp prec emax (Zpos m2) e' loc_Exact) as [mrs'' e''].
  cbn [fst snd] in Hm2, He2.
  destruct (shr_m mrs'') as [|m3|m3]; try lia.
  destruct (e'' <=? emax - prec); [right|now left].
  exists m3, e''. split; [reflexivity|lia].
Qed.

Lemma shl_align_snd (mx : positive) (ex ex' : Z) :
  snd (shl_align mx ex ex') = Z.min ex ex'.
Proof.
  unfold shl_align. destruct (ex' - ex) eqn:E; cbn [snd]; lia.
Qed.

Lemma binary_round_finf (sx : bool) (m : positive) (e : Z) :
  emin prec emax <= e ->
  finf sx (Z.min e (Zpos (digits2_pos m) + e - prec)) (binary_round prec emax sx m e)
  /\ finf sx (emin prec emax) (binary_round prec emax sx m e).
Proof.
  intros He. unfold binary_round.
  pose proof (shl_align_snd m e (fexp prec emax (Zpos (digits2_pos m) + e))) as Hs.
  destruct (shl_align m e (fexp prec emax (Zpos (digits2_pos m) + e))) as [mz ez].
  cbn [snd] in Hs.
  assert (Hez : emin prec emax <= ez
                /\ Z.min e (Zpos (digits2_pos m) + e - prec) <= ez).
  { rewrite Hs. unfold fexp, emin, prec, emax in *. lia. }
  pose proof (binary_round_aux_finf sx mz ez loc_Exact (proj1 Hez)) as H.
  split; eapply finf_weaken; try exact H; lia.
Qed.

(** [float64(n)] is zero for zero only, and has the sign of [n]. *)
Lemma float64_of_Z_shape (n : Z) :
  match n with
  | Z0 => float64_of_Z n = S754_zero false
  | Zpos _ => finf false (-52) (float64_of_Z n)
  | Zneg _ => finf true (-52) (float64_of_Z n)
  end.
Proof.
  destruct n as [|p|p]; [reflexivity| |];
    unfold float64_of_Z, binary_normalize;
    (eapply finf_weaken;
     [|apply (fun H => proj1 (binary_round_finf _ p 0 H));
       unfold emin, prec, emax; lia]);
    pose proof (Pos2Z.is_pos (digits2_pos p)); unfold prec; lia.
Qed.

Lemma digits2_pos_upper (p : positive) :
  Zpos p < 2 ^ Zpos (digits2_pos p).
Proof.
  induction p as [p IH|p IH|]; cbn [digits2_pos].
  - rewrite Pos2Z.inj_succ, Z.pow_succ_r by lia. rewrite (Pos2Z.inj_xI p). lia.
  - rewrite Pos2Z.inj_succ, Z.pow_succ_r by lia. rewrite (Pos2Z.inj_xO p). lia.
  - reflexivity.
Qed.

(** Two numbers of one sign add up to a number of that sign. *)
Lemma fadd_finf (s : bool) (x y : float64) :
  finf s (emin prec emax) x -> finf s (emin prec emax) y ->
  finf s (emin prec emax) (fadd x y).
Proof.
  intros [->|(mx & ex & -> & Hx)] [->|(my & ey & -> & Hy)].
  - left. destruct s; reflexivity.
  - left. reflexivity.
  - left. destruct s; reflexivity.
  - unfold fadd, SFadd.
    set (a := fst (shl_align mx ex (Z.min ex ey))).
    set (b := fst (shl_align my ey (Z.min ex ey))).
    assert (He : emin prec emax <= Z.min ex ey) by lia.
    destruct s; cbn [cond_Zopp Z.opp Z.add binary_normalize];
      apply binary_round_finf; exact He.
Qed.

Lemma fadd_zero_l (s : bool) (lo : Z) (y : float64) :
  finf s lo y -> fadd (S754_zero false) y = y.
Proof. intros [->|(m & e & -> & _)]; reflexivity. Qed.

Lemma fadd_zero_r (s : bool) (lo : Z) (x : float64) :
  finf s lo x -> fadd x (S754_zero false) = x.
Proof. intros [->|(m & e & -> & _)]; reflexivity. Qed.

(** A quotient of finite numbers that is far from underflow is not zero. *)
Lemma fdiv_finf (s : bool) (m1 m2 : positive) (e1 e2 : Z) :
  Zpos (digits2_pos m2) = 53 ->
  -969 <= e1 - e2 ->
  finf s (emin prec emax)
       (fdiv (S754_finite s m1 e1) (S754_finite false m2 e2)).
Proof.
  intros Hd2 He. unfold fdiv, SFdiv, SFdiv_core_binary.
  rewrite Bool.xorb_false_r. cbn [Zdigits2]. rewrite Hd2.
  pose proof (digits2_pos_lower m1) as Hlo.
  pose proof (digits2_pos_upper m2) as Hup. rewrite Hd2 in Hup.
  pose proof (Pos2Z.is_pos (digits2_pos m1)) as Hd1.
  set (d1 := Zpos (digits2_pos m1)) in *.
  unfold fexp, emin, prec, emax.
  set (e' := Z.min (Z.max (d1 + e1 - (53 + e2) - 53) (3 - 1024 - 53)) (e1 - e2)).
  assert (He' : e' = Z.min (d1 + e1 - e2 - 106) (e1 - e2)) by (unfold e'; lia).
  assert (Hm' : 2 ^ 105 <= match e1 - e2 - e' with
                           | Z0 => Zpos m1
                           | Zpos _ => Z.shiftl (Zpos m1) (e1 - e2 - e')
                           | Zneg _ => 0
                           end).
  { destruct (e1 - e2 - e') as [|n|n] eqn:En.
    - assert (105 <= d1 - 1) by lia.
      transitivity (2 ^ (d1 - 1)); [apply Z.pow_le_mono_r; lia|exact Hlo].
    - rewrite Z.shiftl_mul_pow2 by lia.
      assert (Hn : Zpos n = 106 - d1) by lia. rewrite Hn.
      replace 105 with ((d1 - 1) + (106 - d1)) by lia.
      rewrite Z.pow_add_r by lia.
      apply Z.mul_le_mono_nonneg_r; [apply Z.pow_nonneg; lia|exact Hlo].
    - lia. }
  set (m' := match e1 - e2 - e' with
             | Z0 => Zpos m1
             | Zpos _ => Z.shiftl (Zpos m1) (e1 - e2 - e')
             | Zneg _ => 0
             end) in *.
  assert (Hq : 1 <= m' / Zpos m2).
  { apply Z.div_le_lower_bound; [lia|].
    assert (2 ^ 53 <= 2 ^ 105) by (apply Z.pow_le_mono_r; lia). lia. }
  unfold Z.div in Hq.
  destruct (Z.div_eucl m' (Zpos m2)) as [q r].
  destruct q as [|q|q]; try lia.
  eapply finf_weaken; [|apply binary_round_aux_finf];
    unfold emin, prec, emax; lia.
Qed.

Lemma sixty_billion :
  float64_of_Z 60000000000 = S754_finite false 7864320000000000 (-17).
Proof. vm_compute. reflexivity. Qed.

Lemma gt0_finf (s : bool) (lo : Z) (x : float64) :
  finf s lo x -> gt0 x = negb s.
Proof. intros [->|(m & e & -> & _)]; destruct s; reflexivity. Qed.

(** The remaining nanoseconds as a fraction of a minute keep their sign. *)
Lemma fraction_finf (s : bool) (x : float64) :
  finf s (-52) x ->
  finf s (emin prec emax) (fdiv x (float64_of_Z 60000000000)).
Proof.
  rewrite sixty_billion. intros [->|(m & e & -> & He)].
  - left. destruct s; reflexivity.
  - apply fdiv_finf; [reflexivity|lia].
Qed.

(** [Minutes] keeps the sign of the duration: above zero for a positive
    one, below for a negative one, zero for zero. *)
Lemma Minutes_shape (d : GoTime.Duration) :
  match d with
  | Z0 => Minutes d = S754_zero false
  | Zpos _ => finf false (emin prec emax) (Minutes d)
  | Zneg _ => finf true (emin prec emax) (Minutes d)
  end.
Proof.
  assert (Hsame : forall (s : bool) (q r : Z),
             (q = 0 \/ (if s then q < 0 else 0 < q)) ->
             (r = 0 \/ (if s then r < 0 else 0 < r)) ->
             ~ (q = 0 /\ r = 0) ->
             finf s (emin prec emax)
                  (fadd (float64_of_Z q)
                        (fdiv (float64_of_Z r) (float64_of_Z 60000000000)))).
  { intros s q r Hq Hr Hnz.
    assert (Hfq : q <> 0 -> finf s (-52) (float64_of_Z q)).
    { intros Hq0. pose proof (float64_of_Z_shape q) as H.
      destruct q as [|q|q], s; try lia; try exact H; destruct Hq; lia. }
    assert (Hfr : r <> 0 -> finf s (-52) (float64_of_Z r)).
    { intros Hr0. pose proof (float64_of_Z_shape r) as H.
      destruct r as [|r|r], s; try lia; try exact H; destruct Hr; lia. }
    destruct (Z.eq_dec r 0) as [->|Hr0].
    - change (fdiv (float64_of_Z 0) (float64_of_Z 60000000000))
        with (S754_zero false).
      assert (Hq0 : q <> 0) by lia.
      rewrite (fadd_zero_r s (-52)) by auto.
      eapply finf_weaken; [|apply Hfq; exact Hq0]. unfold emin, prec, emax; lia.
    - pose proof (fraction_finf s _ (Hfr Hr0)) as Hb.
      destruct (Z.eq_dec q 0) as [->|Hq0].
      + change (float64_of_Z 0) with (S754_zero false).
        rewrite (fadd_zero_l s (emin prec emax)); auto.
      + apply fadd_finf; [|exact Hb].
        eapply finf_weaken; [|apply Hfq; exact Hq0].
        unfold emin, prec, emax; lia. }
  unfold Minutes. change GoTime.Minute with 60000000000.
  destruct d as [|p|p].
  - vm_compute. reflexivity.
  - pose proof (Z.quot_rem' (Zpos p) 60000000000) as E.
    pose proof (Z.rem_bound_pos (Zpos p) 60000000000 ltac:(lia) ltac:(lia)) as Hr.
    pose proof (Z.quot_pos (Zpos p) 60000000000 ltac:(lia) ltac:(lia)) as Hq.
    apply (Hsame false); lia.
  - pose proof (Z.quot_rem' (Zneg p) 60000000000) as E.
    pose proof (Z.rem_bound_pos (Zpos p) 60000000000 ltac:(lia) ltac:(lia)) as Hr.
    pose proof (Z.quot_pos (Zpos p) 60000000000 ltac:(lia) ltac:(lia)) as Hq.
    change (Zneg p) with (- Zpos p) in *.
    rewrite Z.quot_opp_l, Z.rem_opp_l in * by lia.
    apply (Hsame true); lia.
Qed.

(** The test [Minutes() > 0] is the test for a positive duration. *)
Lemma Minutes_gt0 (d : GoTime.Duration) : gt0 (Minutes d) = (0 <? d).
Proof.
  pose proof (Minutes_shape d) as H. destruct d as [|p|p].
  - rewrite H. reflexivity.
  - rewrite (gt0_finf _ _ _ H). reflexivity.
  - rewrite (gt0_finf _ _ _ H). reflexivity.
Qed.

Lemma lt0_finf (s : bool) (lo : Z) (x : float64) :
  finf s lo x -> lt0 x = s.
Proof. intros [->|(m & e & -> & _)]; destruct s; reflexivity. Qed.

Lemma Minutes_lt0 (d : GoTime.Duration) : lt0 (Minutes d) = (d <? 0).
Proof.
  pose proof (Minutes_shape d) as H. destruct d as [|p|p].
  - rewrite H. reflexivity.
  - rewrite (lt0_finf _ _ _ H). reflexivity.
  - rewrite (lt0_finf _ _ _ H). reflexivity.
Qed.

Lemma Minutes_zero_iff (d : GoTime.Duration) : Minutes d = d_zero <-> d = 0.
Proof.
  pose proof (Minutes_shape d) as H. destruct d as [|p|p].
  - split; [reflexivity|intros _; exact H].
  - split; [|discriminate].
    destruct H as [H|(m & e & H & _)]; rewrite H; discriminate.
  - split; [|discriminate].
    destruct H as [H|(m & e & H & _)]; rewrite H; discriminate.
Qed.

(** A whole number of minutes is converted exactly. *)
Lemma Minutes_whole (k : Z) : Minutes (k * GoTime.Minute) = float64_of_Z k.
Proof.
  unfold Minutes. change GoTime.Minute with 60000000000.
  rewrite Z.quot_mul, Z.rem_mul by lia.
  change (fdiv (float64_of_Z 0) (float64_of_Z 60000000000))
    with (S754_zero false).
  pose proof (float64_of_Z_shape k) as H. destruct k as [|p|p].
  - reflexivity.
  - apply (fadd_zero_r false (-52)); exact H.
  - apply (fadd_zero_r true (-52)); exact H.
Qed.

Lemma gt0_float64_of_Z (k : Z) : gt0 (float64_of_Z k) = (0 <? k).
Proof.
  rewrite <- Minutes_whole, Minutes_gt0.
  change GoTime.Minute with 60000000000.
  destruct (0 <? k) eqn:E.
  - apply Z.ltb_lt in E. apply Z.ltb_lt. lia.
  - apply Z.ltb_ge in E. apply Z.ltb_ge. lia.
Qed.

Lemma all_from_spec (n : nat) (f : Z -> bool) :
  forall lo, all_from n lo f = true ->
             forall z, lo <= z < lo + Z.of_nat n -> f z = true.
Proof.
  induction n as [|n IH]; intros lo H z Hz; [lia|].
  cbn [all_from] in H. apply andb_true_iff in H. destruct H as [H0 H1].
  destruct (Z.eq_dec z lo) as [->|Hne]; [exact H0|].
  apply (IH (lo + 1) H1). lia.
Qed.

(** Up to a day of whole minutes, [%f] prints the number and six zeros
    (checked on each of the 1439 values). *)
Lemma fmt_f_whole (k : Z) :
  0 < k < 1440 -> fmt_f (float64_of_Z k) = decimal k ++ ".000000".
Proof.
  intros Hk. apply String.eqb_eq.
  apply (all_from_spec 1439
           (fun k => String.eqb (fmt_f (float64_of_Z k)) (decimal k ++ ".000000"))
           1); [vm_compute; reflexivity|lia].
Qed.

(* ================================================================== *)
(** * Further properties of [Delay] *)

Lemma Sub_pos_later (t u : GoTime.Time) :
  inDay t -> inDay u -> (0 < GoTime.Sub t u <-> later t u).
Proof.
  unfold inDay, later, GoTime.Sub, GoTime.Second.
  intros [_ Ht] [_ Hu]. split; intros H; nia.
Qed.

Lemma Sub_neg_later (t u : GoTime.Time) :
  inDay t -> inDay u -> (GoTime.Sub t u < 0 <-> later u t).
Proof.
  unfold inDay, later, GoTime.Sub, GoTime.Second.
  intros [_ Ht] [_ Hu]. split; intros H; nia.
Qed.

Lemma Sub_zero_same (t u : GoTime.Time) :
  inDay t -> inDay u -> (GoTime.Sub t u = 0 <-> t = u).
Proof.
  unfold inDay, GoTime.Sub, GoTime.Second.
  destruct t as [a n], u as [b k]. cbn [GoTime.tsec GoTime.tnsec].
  intros [_ Ht] [_ Hu]. split; intros H.
  - assert (a = b) by nia. subst. f_equal. lia.
  - injection H as -> ->. lia.
Qed.

(** The layout without seconds gives a whole minute of the day. *)
Lemma Parse_1504_minutes (v : string) (t : GoTime.Time) :
  GoTime.Parse "15:04" v = inl t ->
  exists h m, 0 <= h < 24 /\ 0 <= m < 60 /\ t = GoTime.Date0 h m 0 0.
Proof.
  intros H. pose proof (Parse_loop "15:04" v) as L. rewrite H in L. clear H.
  change (String.length "15:04") with 5%nat in L.
  destruct layout_1504 as (E1 & E2 & E3).
  rewrite parseLoop_S in L. unfold GoTime.parseStep in L at 1.
  rewrite E1 in L. cbv beta iota zeta in L.
  change (GoTime.skip v "") with (v, GoTime.noerr) in L.
  cbv beta iota zeta in L.
  destruct (GoTime.getnum v false) as [[h v1] e1].
  destruct ((h <? 0) || (24 <=? h))%bool eqn:Hh; [discriminate|].
  destruct e1; [|discriminate].
  rewrite parseLoop_S in L. unfold GoTime.parseStep in L at 1.
  rewrite E2 in L. cbv beta iota zeta in L.
  destruct (GoTime.skip v1 ":") as [v2 [|]]; [|discriminate].
  cbv beta iota zeta in L.
  destruct (GoTime.getnum v2 true) as [[m v3] e3].
  destruct ((m <? 0) || (60 <=? m))%bool eqn:Hm; [discriminate|].
  destruct e3; [|discriminate].
  rewrite parseLoop_S in L. unfold GoTime.parseStep in L at 1.
  rewrite E3 in L. cbv beta iota zeta in L.
  change (GoTime.skip v3 "") with (v3, GoTime.noerr) in L.
  cbv beta iota zeta in L.
  destruct (nonempty v3); [discriminate|].
  injection L as <-. cbn [GoTime.hour GoTime.min GoTime.sec GoTime.nsec].
  apply range_check in Hh, Hm. now exists h, m.
Qed.

(** So does the layout whose seconds are the literal [:00]. *)
Lemma Parse_150400_minutes (v : string) (t : GoTime.Time) :
  GoTime.Parse "15:04:00" v = inl t ->
  exists h m, 0 <= h < 24 /\ 0 <= m < 60 /\ t = GoTime.Date0 h m 0 0.
Proof.
  intros H. pose proof (Parse_loop "15:04:00" v) as L. rewrite H in L. clear H.
  change (String.length "15:04:00") with 8%nat in L.
  destruct layout_150400 as (E1 & E2 & E3).
  rewrite parseLoop_S in L. unfold GoTime.parseStep in L at 1.
  rewrite E1 in L. cbv beta iota zeta in L.
  change (GoTime.skip v "") with (v, GoTime.noerr) in L.
  cbv beta iota zeta in L.
  destruct (GoTime.getnum v false) as [[h v1] e1].
  destruct ((h <? 0) || (24 <=? h))%bool eqn:Hh; [discriminate|].
  destruct e1; [|discriminate].
  rewrite parseLoop_S in L. unfold GoTime.parseStep in L at 1.
  rewrite E2 in L. cbv beta iota zeta in L.
  destruct (GoTime.skip v1 ":") as [v2 [|]]; [|discriminate].
  cbv beta iota zeta in L.
  destruct (GoTime.getnum v2 true) as [[m v3] e3].
  destruct ((m <? 0) || (60 <=? m))%bool eqn:Hm; [discriminate|].
  destruct e3; [|discriminate].
  rewrite parseLoop_S in L. unfold GoTime.parseStep in L at 1.
  rewrite E3 in L. cbv beta iota zeta in L.
  destruct (GoTime.skip v3 ":00") as [v4 [|]]; [|discriminate].
  cbv beta iota zeta in L.
  destruct (nonempty v4); [discriminate|].
  injection L as <-. cbn [GoTime.hour GoTime.min GoTime.sec GoTime.nsec].
  apply range_check in Hh, Hm. now exists h, m.
Qed.

Lemma Parse_actual_nonempty (a : string) (t : GoTime.Time) :
  GoTime.Parse (actualForm a) a = inl t -> nonempty a = true.
Proof. destruct a; [vm_compute; discriminate|reflexivity]. Qed.

(** When both times parse, [Delay] is their difference in minutes. *)
Lemma Delay_parsed (l : Location) (sched : string) (ta ts : GoTime.Time) :
  GoTime.Parse (actualForm (AT (Arrival l))) (AT (Arrival l)) = inl ta ->
  reference l = Some sched ->
  GoTime.Parse (schedForm sched) sched = inl ts ->
  Delay l = Ret (Minutes (GoTime.Sub ta ts)).
Proof.
  intros Ha Hr Hs. rewrite Delay_by_fields.
  rewrite (Parse_actual_nonempty _ _ Ha), Hr. unfold parseOrFatal.
  rewrite Ha, Hs. reflexivity.
Qed.

(** X1.  When the actual time and the reference time parse, the sign of the
    delay is the order of the two times of day: above zero exactly when the
    actual time is the later one, below zero exactly when it is the earlier
    one, and 0.0 exactly when they are the same time.  The conversion to
    [float64] never loses the sign, down to one nanosecond. *)
Theorem Delay_sign_is_order
    (l : Location) (sched : string) (ta ts : GoTime.Time) :
  GoTime.Parse (actualForm (AT (Arrival l))) (AT (Arrival l)) = inl ta ->
  reference l = Some sched ->
  GoTime.Parse (schedForm sched) sched = inl ts ->
  exists d,
    Delay l = Ret d
    /\ (gt0 d = true <-> later ta ts)
    /\ (lt0 d = true <-> later ts ta)
    /\ (d = d_zero <-> ta = ts).
Proof.
  intros Ha Hr Hs. exists (Minutes (GoTime.Sub ta ts)).
  pose proof (Parse_inDay _ _ _ Ha) as Da.
  pose proof (Parse_inDay _ _ _ Hs) as Ds.
  split; [now apply (Delay_parsed l sched)|].
  split; [|split].
  - rewrite Minutes_gt0, Z.ltb_lt. now apply Sub_pos_later.
  - rewrite Minutes_lt0, Z.ltb_lt. now apply Sub_neg_later.
  - rewrite Minutes_zero_iff. now apply Sub_zero_same.
Qed.

Lemma Delay_sign_is_order_witness :
  exists d,
    Delay loc_working_only = Ret d
    /\ (gt0 d = true
        <-> later (GoTime.Date0 10 7 0 0) (GoTime.Date0 10 0 30 0))
    /\ (lt0 d = true
        <-> later (GoTime.Date0 10 0 30 0) (GoTime.Date0 10 7 0 0))
    /\ (d = d_zero <-> GoTime.Date0 10 7 0 0 = GoTime.Date0 10 0 30 0).
Proof.
  apply (Delay_sign_is_order loc_working_only "10:00:30");
    vm_compute; reflexivity.
Defined.

Lemma digit_char (k : Z) :
  0 <= k < 10 ->
  GoTime.isDigitChar (ascii_of_nat (48 + Z.to_nat k)) = true
  /\ GoTime.digitVal (ascii_of_nat (48 + Z.to_nat k)) = k.
Proof.
  intros Hk.
  assert (H : k = 0 \/ k = 1 \/ k = 2 \/ k = 3 \/ k = 4 \/ k = 5 \/ k = 6
              \/ k = 7 \/ k = 8 \/ k = 9) by lia.
  repeat (destruct H as [->|H]; [split; reflexivity|]).
  subst. split; reflexivity.
Qed.

(** [getnum] reads two digits back, whatever follows. *)
Lemma getnum_two_digits (n : Z) (rest : string) (fixed : bool) :
  0 <= n < 100 ->
  GoTime.getnum (two_digits n ++ rest) fixed = (n, rest, GoTime.noerr).
Proof.
  intros Hn. unfold two_digits. cbn [append GoTime.getnum].
  assert (H1 : 0 <= n / 10 < 10)
    by (split; [apply Z.div_pos|apply Z.div_lt_upper_bound]; lia).
  assert (H0 : 0 <= n mod 10 < 10) by (apply Z.mod_pos_bound; lia).
  destruct (digit_char _ H1) as [D1 V1]. destruct (digit_char _ H0) as [D0 V0].
  rewrite D1, D0, V1, V0. f_equal. f_equal.
  pose proof (Z.div_mod n 10 ltac:(lia)). lia.
Qed.

Lemma skip_colon (rest : string) :
  GoTime.skip (":" ++ rest) ":" = (rest, GoTime.noerr).
Proof. reflexivity. Qed.

Lemma in_range (x hi : Z) :
  0 <= x < hi -> ((x <? 0) || (hi <=? x))%bool = false.
Proof.
  intros H. apply orb_false_iff. split; [apply Z.ltb_ge|apply Z.leb_gt]; lia.
Qed.

(** A clock time [hh:mm] parses to its hour and minute. *)
Lemma Parse_clock_text (h m : Z) :
  0 <= h < 24 -> 0 <= m < 60 ->
  GoTime.Parse "15:04" (clock_text h m) = inl (GoTime.Date0 h m 0 0).
Proof.
  intros Hh Hm. unfold GoTime.Parse.
  change (String.length "15:04") with 5%nat.
  destruct layout_1504 as (E1 & E2 & E3).
  rewrite parseLoop_S. unfold GoTime.parseStep at 1.
  rewrite E1. cbv beta iota zeta.
  change (GoTime.skip (clock_text h m) "") with (clock_text h m, GoTime.noerr).
  cbv beta iota zeta. unfold clock_text.
  rewrite getnum_two_digits by lia. rewrite (in_range h 24 Hh).
  rewrite parseLoop_S. unfold GoTime.parseStep at 1.
  rewrite E2. cbv beta iota zeta. rewrite skip_colon. cbv beta iota zeta.
  rewrite <- (append_nil_r (two_digits m)).
  rewrite getnum_two_digits by lia. rewrite (in_range m 60 Hm).
  rewrite parseLoop_S. unfold GoTime.parseStep at 1.
  rewrite E3. reflexivity.
Qed.

(** A clock time [hh:mm:ss] parses, on the scheduled side, to its hour,
    minute and second. *)
Lemma Parse_clock_text_seconds (h m s : Z) :
  0 <= h < 24 -> 0 <= m < 60 -> 0 <= s < 60 ->
  GoTime.Parse "15:04:05" (clock_text_seconds h m s)
  = inl (GoTime.Date0 h m s 0).
Proof.
  intros Hh Hm Hs. unfold GoTime.Parse.
  change (String.length "15:04:05") with 8%nat.
  destruct layout_150405 as (E1 & E2 & E3).
  rewrite parseLoop_S. unfold GoTime.parseStep at 1.
  rewrite E1. cbv beta iota zeta.
  change (GoTime.skip (clock_text_seconds h m s) "")
    with (clock_text_seconds h m s, GoTime.noerr).
  cbv beta iota zeta. unfold clock_text_seconds.
  rewrite getnum_two_digits by lia. rewrite (in_range h 24 Hh).
  rewrite parseLoop_S. unfold GoTime.parseStep at 1.
  rewrite E2. cbv beta iota zeta. rewrite skip_colon. cbv beta iota zeta.
  rewrite getnum_two_digits by lia. rewrite (in_range m 60 Hm).
  rewrite parseLoop_S. unfold GoTime.parseStep at 1.
  rewrite E3. cbv beta iota zeta. rewrite skip_colon. cbv beta iota zeta.
  rewrite <- (append_nil_r (two_digits s)).
  rewrite getnum_two_digits by lia. rewrite (in_range s 60 Hs).
  rewrite parseLoop_S. unfold GoTime.parseStep at 1.
  reflexivity.
Qed.

Lemma actualForm_clock_text (h m : Z) : actualForm (clock_text h m) = "15:04".
Proof. reflexivity. Qed.

Lemma schedForm_clock_text (h m : Z) : schedForm (clock_text h m) = "15:04".
Proof. reflexivity. Qed.

Lemma schedForm_clock_text_seconds (h m s : Z) :
  schedForm (clock_text_seconds h m s) = "15:04:05".
Proof. reflexivity. Qed.

Lemma Sub_clock (h m h' m' s' : Z) :
  GoTime.Sub (GoTime.Date0 h m 0 0) (GoTime.Date0 h' m' s' 0)
  = ((h * 3600 + m * 60) - (h' * 3600 + m' * 60 + s')) * GoTime.Second.
Proof.
  unfold GoTime.Sub, GoTime.Date0, GoTime.Second.
  cbn [GoTime.tsec GoTime.tnsec]. lia.
Qed.

(** X2.  For an actual time hh:mm and a reference time hh:mm, two digits
    each with the hour below 24 and the minute below 60, [Delay] returns,
    and returns exactly the whole number of minutes between them,
    (h*60+m) - (h'*60+m') as a [float64]: negative when early. *)
Theorem Delay_on_clock_texts (l : Location) (h m h' m' : Z) :
  0 <= h < 24 -> 0 <= m < 60 -> 0 <= h' < 24 -> 0 <= m' < 60 ->
  AT (Arrival l) = clock_text h m ->
  reference l = Some (clock_text h' m') ->
  Delay l = Ret (float64_of_Z ((h * 60 + m) - (h' * 60 + m'))).
Proof.
  intros Hh Hm Hh' Hm' Ha Hr.
  rewrite (Delay_parsed l (clock_text h' m')
             (GoTime.Date0 h m 0 0) (GoTime.Date0 h' m' 0 0)).
  - rewrite <- Minutes_whole. do 2 f_equal. rewrite Sub_clock.
    unfold GoTime.Minute, GoTime.Second. lia.
  - rewrite Ha, actualForm_clock_text. now apply Parse_clock_text.
  - exact Hr.
  - rewrite schedForm_clock_text. now apply Parse_clock_text.
Qed.

Lemma Delay_on_clock_texts_witness :
  Delay loc_early = Ret (float64_of_Z ((9 * 60 + 58) - (10 * 60 + 0))).
Proof.
  apply (Delay_on_clock_texts loc_early 9 58 10 0); try lia; reflexivity.
Defined.

(** X3.  For an actual time hh:mm and a reference time hh:mm:ss, two
    digits each and in range, [Delay] returns, and its result is above zero
    exactly when the actual minute lies after the reference second. *)
Theorem Delay_on_reference_with_seconds (l : Location) (h m h' m' s' : Z) :
  0 <= h < 24 -> 0 <= m < 60 ->
  0 <= h' < 24 -> 0 <= m' < 60 -> 0 <= s' < 60 ->
  AT (Arrival l) = clock_text h m ->
  reference l = Some (clock_text_seconds h' m' s') ->
  exists d,
    Delay l = Ret d
    /\ (gt0 d = true <-> h' * 3600 + m' * 60 + s' < h * 3600 + m * 60).
Proof.
  intros Hh Hm Hh' Hm' Hs' Ha Hr.
  exists (Minutes (GoTime.Sub (GoTime.Date0 h m 0 0) (GoTime.Date0 h' m' s' 0))).
  split.
  - apply (Delay_parsed l (clock_text_seconds h' m' s')).
    + rewrite Ha, actualForm_clock_text. now apply Parse_clock_text.
    + exact Hr.
    + rewrite schedForm_clock_text_seconds. now apply Parse_clock_text_seconds.
  - rewrite Minutes_gt0, Z.ltb_lt, Sub_clock. unfold GoTime.Second. lia.
Qed.

Lemma Delay_on_reference_with_seconds_witness :
  exists d,
    Delay loc_working_only = Ret d
    /\ (gt0 d = true <-> 10 * 3600 + 0 * 60 + 30 < 10 * 3600 + 7 * 60).
Proof.
  apply (Delay_on_reference_with_seconds loc_working_only 10 7 10 0 30);
    try lia; reflexivity.
Defined.

(** X4.  Whatever [Delay] accepts as an actual time is read to the minute:
    under the layout chosen for it, a string that parses gives an hour below
    24 and a minute below 60 with zero seconds and zero nanoseconds,
    whatever its length. *)
Theorem actual_time_is_read_to_the_minute (a : string) (t : GoTime.Time) :
  GoTime.Parse (actualForm a) a = inl t ->
  exists h m, 0 <= h < 24 /\ 0 <= m < 60 /\ t = GoTime.Date0 h m 0 0.
Proof.
  unfold actualForm. destruct (String.length a =? 5)%nat.
  - apply Parse_1504_minutes.
  - apply Parse_150400_minutes.
Qed.

Lemma actual_time_is_read_to_the_minute_witness :
  exists h m, 0 <= h < 24 /\ 0 <= m < 60
              /\ GoTime.Date0 10 7 0 0 = GoTime.Date0 h m 0 0.
Proof.
  apply (actual_time_is_read_to_the_minute "10:07:00").
  vm_compute. reflexivity.
Defined.

(** Every error of the loop of [parse] carries the layout and the value
    [Parse] was called with. *)
Lemma parseLoop_error (fuel : nat) (al av : string) :
  forall (layout value : string) (k : GoTime.Clock) (e : GoTime.ParseError),
    GoTime.parseLoop fuel al av layout value k = Some (inr e) ->
    GoTime.Layout e = al /\ GoTime.Value e = av.
Proof.
  induction fuel as [|fuel IH]; intros layout value k e H; [discriminate|].
  cbn [GoTime.parseLoop] in H. unfold GoTime.parseStep in H.
  destruct (GoTime.nextStdChunk layout) as [[prefix std] suffix].
  cbv beta iota zeta in H.
  destruct (GoTime.skip value prefix) as [value' [|]];
    [|injection H as <-; split; reflexivity].
  destruct std; cbv beta iota zeta in H;
    repeat match type of H with
           | (let '(_, _) := ?x in _) = _ => destruct x
           | (if ?b then _ else _) = _ => destruct b
           | (match ?x with GoTime.noerr => _ | GoTime.errBad => _ end) = _ =>
               destruct x
           | (match ?x with EmptyString => _ | String _ _ => _ end) = _ =>
               destruct x
           end;
    first [ discriminate H
          | eapply IH; exact H
          | injection H as <-; split; reflexivity ].
Qed.

Lemma Parse_error (layout value : string) (e : GoTime.ParseError) :
  GoTime.Parse layout value = inr e ->
  GoTime.Layout e = layout /\ GoTime.Value e = value.
Proof.
  intros H. pose proof (Parse_loop layout value) as L. rewrite H in L.
  exact (parseLoop_error _ _ _ _ _ _ _ L).
Qed.

(** X5.  When [Delay] ends in [log.Fatal], the error is the parse error of
    [time.Parse], the actual time is not empty, and the error names the
    string that failed and the layout it was held against: the actual time
    with its layout, or, the actual time having parsed, the reference time
    with its layout. *)
Theorem Delay_fatal_names_the_time (l : Location) (e : error) :
  Delay l = Fatal e ->
  exists pe,
    e = TimeFormatError pe
    /\ nonempty (AT (Arrival l)) = true
    /\ ((GoTime.Value pe = AT (Arrival l)
         /\ GoTime.Layout pe = actualForm (AT (Arrival l))
         /\ GoTime.Parse (actualForm (AT (Arrival l))) (AT (Arrival l)) = inr pe)
        \/ exists sched ta,
            reference l = Some sched
            /\ GoTime.Parse (actualForm (AT (Arrival l))) (AT (Arrival l))
               = inl ta
            /\ GoTime.Value pe = sched
            /\ GoTime.Layout pe = schedForm sched
            /\ GoTime.Parse (schedForm sched) sched = inr pe).
Proof.
  rewrite Delay_by_fields. unfold parseOrFatal.
  destruct (nonempty (AT (Arrival l))); [|discriminate].
  destruct (GoTime.Parse (actualForm _) _) as [ta|pe] eqn:Ea; cbn [bind].
  - destruct (reference l) as [sched|]; [|discriminate].
    destruct (GoTime.Parse (schedForm sched) sched) as [ts|pe] eqn:Es;
      cbn [bind]; [discriminate|].
    intros H. injection H as <-. exists pe. split; [reflexivity|].
    split; [reflexivity|]. right. exists sched, ta.
    destruct (Parse_error _ _ _ Es) as [HL HV]. auto.
  - intros H. injection H as <-. exists pe. split; [reflexivity|].
    split; [reflexivity|]. left.
    destruct (Parse_error _ _ _ Ea) as [HL HV]. auto.
Qed.

Lemma Delay_fatal_names_the_time_witness :
  exists pe,
    TimeFormatError
      (GoTime.newParseError "15:04:00" "10:07:30" ":00" "30" GoTime.MsgNone)
    = TimeFormatError pe
    /\ nonempty (AT (Arrival loc_seconds)) = true
    /\ ((GoTime.Value pe = AT (Arrival loc_seconds)
         /\ GoTime.Layout pe = actualForm (AT (Arrival loc_seconds))
         /\ GoTime.Parse (actualForm (AT (Arrival loc_seconds)))
                         (AT (Arrival loc_seconds)) = inr pe)
        \/ exists sched ta,
            reference loc_seconds = Some sched
            /\ GoTime.Parse (actualForm (AT (Arrival loc_seconds)))
                            (AT (Arrival loc_seconds)) = inl ta
            /\ GoTime.Value pe = sched
            /\ GoTime.Layout pe = schedForm sched
            /\ GoTime.Parse (schedForm sched) sched = inr pe).
Proof.
  apply (Delay_fatal_names_the_time loc_seconds).
  vm_compute. reflexivity.
Defined.

(* ================================================================== *)
(** * Further properties of the rendering *)

(** X6.  For an actual time hh:mm and a reference time hh:mm, two digits
    each and in range, the text of the Location is its fields, then,
    exactly when the actual time is k > 0 minutes after the reference, the
    line [DELAY: k.000000], then the closing line break. *)
Theorem Location_String_on_clock_texts (l : Location) (h m h' m' : Z) :
  0 <= h < 24 -> 0 <= m < 60 -> 0 <= h' < 24 -> 0 <= m' < 60 ->
  AT (Arrival l) = clock_text h m ->
  reference l = Some (clock_text h' m') ->
  Location_String l
  = Ret (Location_fields l
         ++ (if 0 <? (h * 60 + m) - (h' * 60 + m')
             then nl ++ "DELAY: "
                     ++ decimal ((h * 60 + m) - (h' * 60 + m')) ++ ".000000"
             else "")
         ++ nl).
Proof.
  intros Hh Hm Hh' Hm' Ha Hr.
  rewrite Location_String_by_delay.
  rewrite (Delay_parsed l (clock_text h' m')
             (GoTime.Date0 h m 0 0) (GoTime.Date0 h' m' 0 0)).
  - replace (GoTime.Sub (GoTime.Date0 h m 0 0) (GoTime.Date0 h' m' 0 0))
      with (((h * 60 + m) - (h' * 60 + m')) * GoTime.Minute)
      by (rewrite Sub_clock; unfold GoTime.Minute, GoTime.Second; lia).
    cbn [bind]. rewrite Minutes_whole, gt0_float64_of_Z.
    destruct (0 <? (h * 60 + m) - (h' * 60 + m')) eqn:E; [|reflexivity].
    apply Z.ltb_lt in E. rewrite fmt_f_whole by lia. reflexivity.
  - rewrite Ha, actualForm_clock_text. now apply Parse_clock_text.
  - exact Hr.
  - rewrite schedForm_clock_text. now apply Parse_clock_text.
Qed.

Lemma Location_String_on_clock_texts_witness :
  Location_String loc_late
  = Ret (Location_fields loc_late
         ++ (if 0 <? (10 * 60 + 7) - (10 * 60 + 0)
             then nl ++ "DELAY: "
                     ++ decimal ((10 * 60 + 7) - (10 * 60 + 0)) ++ ".000000"
             else "")
         ++ nl).
Proof.
  apply (Location_String_on_clock_texts loc_late 10 7 10 0); try lia;
    reflexivity.
Defined.

Lemma contains_refl (s : string) : contains s s.
Proof. exists "", "". cbn [append]. now rewrite append_nil_r. Qed.

Lemma contains_app_l (sub s x : string) :
  contains sub s -> contains sub (s ++ x).
Proof.
  intros (pre & post & ->). exists pre, (post ++ x).
  now rewrite !append_assoc.
Qed.

Lemma contains_app_r (sub s x : string) :
  contains sub x -> contains sub (s ++ x).
Proof.
  intros (pre & post & ->). exists (s ++ pre), post.
  now rewrite !append_assoc.
Qed.

Lemma contains_option (sub s x : string) (b : bool) :
  contains sub s -> contains sub (if b then s ++ x else s).
Proof. destruct b; auto using contains_app_l. Qed.

Lemma contains_added (x s : string) : contains x (s ++ x).
Proof. apply contains_app_r, contains_refl. Qed.

(** X7.  Nothing of a Location is left out of its text: the text holds the
    line of the location code, the labelled text of each scheduled time
    that is set, and the labelled text of each event that is present. *)
Theorem Location_String_shows_every_field (l : Location) (text : string) :
  Location_String l = Ret text ->
  contains (nl ++ "-- " ++ TPL l) text
  /\ (nonempty (PTA l) = true ->
      contains (" | Public Time Arrive: " ++ PTA l) text)
  /\ (nonempty (PTD l) = true ->
      contains (" | Public Time Depart: " ++ PTD l) text)
  /\ (nonempty (WTA l) = true ->
      contains (" | Working Time Arrive: " ++ WTA l) text)
  /\ (nonempty (WTD l) = true ->
      contains (" | Working Time Depart: " ++ WTD l) text)
  /\ (nonempty (WTP l) = true ->
      contains (" | Working Time Pass: " ++ WTP l) text)
  /\ (present (Arrival l) = true ->
      contains (nl ++ tab ++ "** Arr: " ++ Event_String (Arrival l)) text)
  /\ (present (Departure l) = true ->
      contains (nl ++ tab ++ "** Dep: " ++ Event_String (Departure l)) text)
  /\ (present (Pass l) = true ->
      contains (nl ++ tab ++ "** Pass: " ++ Event_String (Pass l)) text).
Proof.
  rewrite Location_String_by_delay.
  destruct (Delay l) as [d|e]; cbn [bind]; [|discriminate].
  intros H. injection H as <-.
  generalize ((if gt0 d then nl ++ "DELAY: " ++ fmt_f d else "") ++ nl).
  intros rest.
  unfold Location_fields. cbv zeta.
  generalize (Event_String (Arrival l)) (Event_String (Departure l))
             (Event_String (Pass l)).
  intros ea ed ep.
  repeat match goal with
         | |- _ /\ _ => split
         end;
    try (intros Hset; rewrite Hset);
    apply contains_app_l;
    repeat first [ apply contains_added | apply contains_option ].
  apply contains_refl.
Qed.

Lemma Location_String_shows_every_field_witness :
  contains (nl ++ "-- EUSTON") text_late
  /\ contains " | Public Time Arrive: 10:00" text_late
  /\ contains " | Public Time Depart: 10:02" text_late
  /\ contains " | Working Time Arrive: 09:59:30" text_late
  /\ contains (nl ++ tab ++ "** Arr: ACTUAL 10:07  (Source: TD)") text_late.
Proof.
  destruct (Location_String_shows_every_field loc_late text_late
              Location_String_late)
    as (H0 & H1 & H2 & H3 & _ & _ & H6 & _).
  split; [exact H0|]. split; [exact (H1 eq_refl)|].
  split; [exact (H2 eq_refl)|]. split; [exact (H3 eq_refl)|].
  exact (H6 eq_refl).
Defined.

(** X8.  An event renders as the empty text exactly when it is the zero
    Event, the one [Location.String] and [Delay] take as absent: a present
    event never renders as nothing. *)
Theorem Event_String_empty_iff_absent (e : Event) :
  Event_String e = "" <-> e = Event_zero.
Proof.
  split.
  - destruct e as [a et src]. unfold Event_String. cbn [AT ET SRC].
    destruct a as [|c a]; cbn [nonempty];
      [|destruct (nonempty et), (nonempty src); cbn [append]; discriminate].
    destruct et as [|c et]; cbn [nonempty];
      [|destruct (nonempty src); cbn [append]; discriminate].
    destruct src as [|c src]; cbn [nonempty];
      [reflexivity|cbn [append]; discriminate].
  - intros ->. reflexivity.
Qed.

Lemma Event_String_empty_iff_absent_witness :
  Event_String Event_zero = "" /\ Event_zero = Event_zero.
Proof.
  split.
  - exact (proj2 (Event_String_empty_iff_absent Event_zero) eq_refl).
  - exact (proj1 (Event_String_empty_iff_absent Event_zero) eq_refl).
Defined.

Lemma concat_cons (x : string) (xs : list string) :
  String.concat "" (x :: xs) = x ++ String.concat "" xs.
Proof.
  destruct xs; cbn [String.concat]; [now rewrite append_nil_r|reflexivity].
Qed.

(** The loop over the Locations returns only when each Location renders. *)
Lemma Timestamp_locations_ret (ls : list Location) :
  forall (s text : string),
    Timestamp_locations s ls = Ret text ->
    exists ts,
      Forall2 (fun l t => Location_String l = Ret t) ls ts
      /\ text = s ++ String.concat "" (map (fun t => nl ++ t) ts).
Proof.
  induction ls as [|l ls IH]; intros s text H.
  - cbn [Timestamp_locations] in H. injection H as <-.
    exists []. split; [constructor|].
    cbn [map String.concat]. now rewrite append_nil_r.
  - cbn [Timestamp_locations] in H.
    destruct (Location_String l) as [t|e] eqn:Hl; cbn [bind] in H;
      [|discriminate].
    destruct (IH _ _ H) as (ts & Hts & ->).
    exists (t :: ts). split; [now constructor|].
    cbn [map]. rewrite concat_cons. now rewrite !append_assoc.
Qed.

(** X9.  A Timestamp renders exactly when each of its Locations renders,
    and its text is then the identifier text followed, in the order of the
    list, by a line break and the text of each Location. *)
Theorem Timestamp_String_iff (t : Timestamp) (text : string) :
  Timestamp_String t = Ret text
  <-> exists ts,
      Forall2 (fun l x => Location_String l = Ret x) (TS_Location t) ts
      /\ text = Timestamp_ids t
                ++ String.concat "" (map (fun x => nl ++ x) ts).
Proof.
  change (Timestamp_String t)
    with (Timestamp_locations (Timestamp_ids t) (TS_Location t)).
  split.
  - apply Timestamp_locations_ret.
  - intros (ts & Hts & ->). now apply Timestamp_locations_in_order.
Qed.

Lemma Timestamp_String_iff_witness :
  Timestamp_String ts_late
  = Ret (Timestamp_ids ts_late
         ++ String.concat "" (map (fun x => nl ++ x) [text_late])).
Proof.
  apply (proj2 (Timestamp_String_iff ts_late _)).
  exists [text_late]. split; [|reflexivity].
  constructor; [exact Location_String_late|constructor].
Defined.

Lemma Timestamp_locations_fatal_first (ls : list Location) :
  forall (s : string) (e : error),
    Timestamp_locations s ls = Fatal e ->
    exists l, In l ls /\ Delay l = Fatal e.
Proof.
  induction ls as [|l ls IH]; intros s e H; [discriminate|].
  cbn [Timestamp_locations] in H.
  destruct (Location_String l) as [t|e0] eqn:Hl; cbn [bind] in H.
  - destruct (IH _ _ H) as (l' & Hin & Hd).
    exists l'. split; [now right|exact Hd].
  - injection H as <-. exists l. split; [now left|].
    now apply Location_String_fatal.
Qed.

(** X10.  Rendering a message ends in [log.Fatal] exactly when its update
    origin is set and some Location of it has a [Delay] that does: with an
    empty update origin the Locations are not rendered, and times in them
    that do not parse do no harm. *)
Theorem Message_String_fatal_iff (m : Message) :
  (exists e, Message_String m = Fatal e)
  <-> nonempty (UO (UR m)) = true
      /\ exists l e, In l (TS_Location (TS (UR m))) /\ Delay l = Fatal e.
Proof.
  unfold Message_String, UniqueResponse_String, Timestamp_String.
  split.
  - intros [e H]. destruct (nonempty (UO (UR m))); [|discriminate].
    split; [reflexivity|].
    destruct (Timestamp_locations _ _) as [t|e'] eqn:Ht; cbn [bind] in H;
      [discriminate|].
    destruct (Timestamp_locations_fatal_first _ _ _ Ht) as (l & Hin & Hd).
    now exists l, e'.
  - intros [Huo (l & e & Hin & Hd)]. rewrite Huo.
    destruct (Timestamp_locations_fatal _ l e Hin Hd)
      as (l' & e' & _ & _ & Hall).
    exists e'. rewrite Hall. reflexivity.
Qed.

Lemma Message_String_fatal_iff_witness :
  exists e, Message_String msg_bad = Fatal e.
Proof.
  apply (proj2 (Message_String_fatal_iff msg_bad)).
  split; [reflexivity|].
  exists loc_bad_actual,
    (TimeFormatError
       (GoTime.newParseError "15:04:00" "9:5" "04" "5" GoTime.MsgNone)).
  split; [left; reflexivity|vm_compute; reflexivity].
Defined.

(* ================================================================== *)
(** * Further properties of the message loop *)

(** X11.  The loop over one list of deliveries followed by another: if the
    first list ends the process, the second is not looked at and nothing of
    it is logged; otherwise the log is the log of the first followed by the
    log of the second, and the loop ends as the second does. *)
Theorem feed_of_concatenation (ds1 ds2 : list Delivery) :
  feed (ds1 ++ ds2)%list
  = match feed ds1 with
    | (out, Exited e) => (out, Exited e)
    | (out, LoopEnded) =>
        let '(out', x) := feed ds2 in ((out ++ out')%list, x)
    end.
Proof.
  induction ds1 as [|d ds1 IH].
  - cbn [feed app]. now destruct (feed ds2).
  - cbn [feed app]. destruct (turn d) as [o [e|]]; [reflexivity|].
    rewrite IH. destruct (feed ds1) as [o1 [e|]]; [reflexivity|].
    destruct (feed ds2) as [o2 x]. now rewrite app_assoc.
Qed.

(** X12.  The loop is left in the ordinary way, without [log.Fatal],
    exactly when every delivery is a decoded document whose message
    renders. *)
Theorem feed_ends_iff_all_render (ds : list Delivery) :
  snd (feed ds) = LoopEnded <-> Forall renders ds.
Proof.
  induction ds as [|d ds IH]; [split; [constructor|reflexivity]|].
  cbn [feed]. split.
  - intros H. destruct (turn d) as [o [e|]] eqn:Ht; [discriminate|].
    destruct (feed ds) as [o' x]. cbn [snd] in *.
    constructor; [|now apply IH].
    destruct d as [e|e|e|body m]; try discriminate.
    cbn [turn] in Ht.
    destruct (Message_String m) as [s|e] eqn:Hm; [|discriminate].
    now exists body, m, s.
  - intros H. inversion H as [|? ? (body & m & text & -> & Hm) Hds]; subst.
    cbn [turn]. rewrite Hm.
    destruct (feed ds) as [o' x]. cbn [snd] in *. now apply IH.
Qed.

Lemma feed_ends_iff_all_render_witness :
  snd (feed [Document "<a/>" msg_good; Document "<c/>" msg_good]) = LoopEnded.
Proof.
  apply (proj2 (feed_ends_iff_all_render _)).
  assert (R : forall body, renders (Document body msg_good)).
  { intros body. eexists body, msg_good, _. split; [reflexivity|].
    vm_compute. reflexivity. }
  constructor; [apply R|]. constructor; [apply R|constructor].
Defined.
